(** * The 3D bot pipeline server (tools/3d-gen/server.py), embedded in Rocq

    The server is an orchestration layer: every handler sequences calls to
    third-party libraries (torch, TripoSG, trimesh, pymeshlab, PIL, httpx,
    duckduckgo_search, the UniRig command line) around two module globals
    and an output directory.  The embedding keeps that shape:

    - a handler is a computation in a state-and-exception monad [M] over a
      [World] (the two module globals, the file system, the trace of
      effects performed so far);
    - a call into a third-party library is an [extern] call answered by the
      environment [Env]; the answer may be a value or a Python exception;
    - [try]/[except]/[finally] are combinators on [M].

    Logging statements are left out: they neither change control flow nor
    the result (the two log lines that evaluate [os.path.getsize] keep that
    evaluation).  Floating-point numbers (coordinates, angles, times, the
    guidance scale) are binary64 values the handlers pass on; the one
    computation on them is the elapsed time of [/generate]. *)

From Stdlib Require Import ZArith Floats Ascii String.
From stdpp Require Import gmap strings list pretty.

Set Warnings "-register-all".
Local Open Scope Z_scope.
Local Open Scope string_scope.
Local Open Scope list_scope.

(** ** Python values, exceptions and results *)

(** JSON-shaped Python values: request bodies, response bodies, the parsed
    skin file.  A [dict] at top level is a [gmap string pyval]; a nested one
    is the list of its items. *)
Inductive pyval :=
| VNone
| VBool (b : bool)
| VInt (n : Z)
| VFloat (x : float)
| VStr (s : string)
| VList (l : list pyval)
| VDict (d : list (string * pyval)).

Abbreviation pydict := (gmap string pyval).

(** The exception classes the handlers tell apart.  [ImportError] stands
    for itself and its subclass [ModuleNotFoundError]. *)
Inductive exn_class :=
| ImportError
| NameError
| KeyError
| AttributeError
| TypeError
| TimeoutExpired
| OSError
| OtherError (cls : string).

Inductive exn :=
| HTTPException (status_code : Z) (detail : string)
| PyExc (cls : exn_class) (msg : string).

(** [str(e)] *)
Definition str_exn (e : exn) : string :=
  match e with
  | HTTPException c d => pretty c +:+ ": " +:+ d
  | PyExc _ m => m
  end.

Definition is_ImportError (e : exn) : bool :=
  match e with PyExc ImportError _ => true | _ => false end.

Definition is_TimeoutExpired (e : exn) : bool :=
  match e with PyExc TimeoutExpired _ => true | _ => false end.

Definition is_HTTPException (e : exn) : bool :=
  match e with HTTPException _ _ => true | _ => false end.

Inductive Result (A : Type) :=
| Ok (a : A)
| Raise (e : exn).
Arguments Ok {A} a.
Arguments Raise {A} e.

(** ** Third-party data *)

(** A loaded model (the TripoSG pipeline, the RMBG network). *)
Definition Handle := nat.

Record Image := { width : Z; height : Z; pixels : string }.

(** [mesh.vertices] and [mesh.faces]: one row per vertex, one per face. *)
Record Mesh := {
  mesh_vertices : list (float * float * float);
  mesh_faces : list (Z * Z * Z)
}.

(** What [trimesh.load] returns: a single mesh, or a scene with its
    [geometry] dictionary in iteration order. *)
Inductive Loaded :=
| LoadedMesh (m : Mesh)
| LoadedScene (geometry : list (string * Mesh)).

Definition Matrix := list (list float).

(** One [add_geometry] of the merged [trimesh.Scene]. *)
Record SceneNode := {
  node_name : string;
  node_geom : Mesh;
  node_transform : Matrix
}.
Definition Scene := list SceneNode.

Record CompletedProcess := {
  returncode : Z;
  stdout : string;
  stderr : string
}.

Inductive Node :=
| Dir
| File (content : string).

(** ** Calls into the environment

    One constructor per third-party operation the handlers perform, indexed
    by the type of its answer. *)
Inductive Call : Type -> Type :=
| PyImport (module : string) : Call unit
    (* import module / from module import ... *)
| CudaIsAvailable : Call bool
    (* torch.cuda.is_available() *)
| GpuStats : Call (list (string * pyval))
    (* the entries after "available" of the dict of lines 197-213 *)
| SnapshotDownload (repo_id local_dir : string) : Call unit
    (* huggingface_hub.snapshot_download *)
| RmbgFromPretrained (weights device : string) : Call Handle
    (* BriaRMBG.from_pretrained(weights).to(device) *)
| RmbgEval (net : Handle) : Call unit
    (* rmbg_net.eval() *)
| PipeFromPretrained (weights device dtype : string) : Call Handle
    (* TripoSGPipeline.from_pretrained(weights).to(device, dtype) *)
| EmptyCache : Call unit
    (* torch.cuda.empty_cache() *)
| TimeNow : Call float
    (* time.time() *)
| ImageOpen (data : string) : Call Image
    (* Image.open(BytesIO(data)) *)
| ImageConvert (img : Image) (mode : string) : Call Image
    (* img.convert(mode) *)
| ImageEncode (img : Image) (format : string) : Call string
    (* the bytes img.save(..., format) produces *)
| MkTemp (suffix : string) : Call string
    (* the name of tempfile.NamedTemporaryFile(suffix=suffix, delete=False) *)
| PrepareImage (path : string) (rmbg : option Handle) : Call Image
    (* image_process.prepare_image(path, bg_color=white, rmbg_net=rmbg) *)
| Inference (pipe : Handle) (img : Image) (seed steps : Z) (guidance : float)
    : Call (list (float * float * float) * list (Z * Z * Z))
    (* pipe(image, generator seeded with seed, steps, guidance).samples[0],
       under torch.no_grad() *)
| TrimeshNew (vs : list (float * float * float)) (fcs : list (Z * Z * Z))
    : Call Mesh
    (* trimesh.Trimesh(vertices, faces) *)
| Decimate (m : Mesh) (targetfacenum : Z)
    : Call (list (float * float * float) * list (Z * Z * Z))
    (* pymeshlab: MeshSet, add_mesh, meshing_merge_close_vertices,
       meshing_decimation_quadric_edge_collapse(targetfacenum), and the
       vertex and face matrices of current_mesh() *)
| Uuid4Hex : Call string
    (* uuid.uuid4().hex *)
| MeshExport (m : Mesh) (path : string) : Call string
    (* the bytes mesh.export(path) writes *)
| SceneExport (s : Scene) (path : string) : Call string
    (* the bytes combined.export(path) writes *)
| DdgsImages (query : string) (max_results : Z) : Call (list pydict)
    (* with DDGS() as ddgs: list(ddgs.images(query, max_results)) *)
| HttpGet (url : pyval) (timeout : Z) : Call string
    (* httpx: client.get(url), raise_for_status(), resp.content *)
| RembgRemove (img : Image) : Call Image
    (* rembg.remove(img) *)
| MeshLoad (path : string) : Call Loaded
    (* trimesh.load(path) *)
| NpRadians (r : pyval) : Call float
    (* np.radians(r) *)
| ComposeMatrix (translate : pyval) (angles : list float) : Call Matrix
    (* trimesh.transformations.compose_matrix(translate=, angles=) *)
| SubprocessRun (cmd : list string) (cwd : string) (timeout : Z)
    : Call CompletedProcess
    (* subprocess.run(cmd, cwd=cwd, capture_output=True, text=True,
       timeout=timeout) *)
| JsonLoads (text : string) : Call pyval.
    (* json.load on the text of a file *)

(** ** The world *)

(** What a handler does to the outside: a third-party call with its answer,
    a file written, a file removed, a directory made. *)
Inductive Event :=
| Called {A : Type} (c : Call A) (r : Result A)
| Wrote (path : string)
| Unlinked (path : string)
| MadeDir (path : string).

(** The state of the running service.  [fs] holds the paths the handlers
    test, create, write or hand to a tool as its output location; the
    weights cache filled by the model loader is not part of it.  [trace] is
    the history of effects, oldest first. *)
Record World := {
  triposg_pipe : option Handle;   (* module global, [None] until loaded *)
  rmbg_net : option Handle;       (* module global *)
  fs : gmap string Node;
  trace : list Event
}.

(** The environment: where the service is installed, what every
    third-party call answers in a given world, what an external process
    leaves on disk, and the builtin [round(x, 2)]. *)
Record Env := {
  PROJECT_ROOT : string;
  sys_executable : string;
  respond : forall A, Call A -> World -> Result A;
  subprocess_fs : list string -> World -> gmap string Node;
  round2 : float -> float
}.

(** ** The monad *)

Definition M (A : Type) : Type := World -> Result A * World.

Definition ret {A} (a : A) : M A := fun w => (Ok a, w).

Definition raise {A} (e : exn) : M A := fun w => (Raise e, w).

Definition bind {A B} (m : M A) (f : A -> M B) : M B :=
  fun w =>
    match m w with
    | (Ok a, w1) => f a w1
    | (Raise e, w1) => (Raise e, w1)
    end.

Notation "x <- m ;; k" := (bind m (fun x => k))
  (at level 100, m at next level, right associativity).
Notation "m ;; k" := (bind m (fun _ => k))
  (at level 100, right associativity).

(** [try: m  except Exception as e: h e]; a handler that does not match
    re-raises. *)
Definition try_except {A} (m : M A) (h : exn -> M A) : M A :=
  fun w =>
    match m w with
    | (Ok a, w1) => (Ok a, w1)
    | (Raise e, w1) => h e w1
    end.

(** [try: m  finally: fin] *)
Definition try_finally {A} (m : M A) (fin : M unit) : M A :=
  fun w =>
    match m w with
    | (r, w1) =>
        match fin w1 with
        | (Ok _, w2) => (r, w2)
        | (Raise e, w2) => (Raise e, w2)
        end
    end.

Definition get_world : M World := fun w => (Ok w, w).

Definition emit (ev : Event) : M unit :=
  fun w => (Ok tt, {| triposg_pipe := triposg_pipe w; rmbg_net := rmbg_net w;
                      fs := fs w; trace := trace w ++ [ev] |}).

Definition set_fs (f : gmap string Node) : M unit :=
  fun w => (Ok tt, {| triposg_pipe := triposg_pipe w; rmbg_net := rmbg_net w;
                      fs := f; trace := trace w |}).

Definition set_triposg_pipe (p : option Handle) : M unit :=
  fun w => (Ok tt, {| triposg_pipe := p; rmbg_net := rmbg_net w;
                      fs := fs w; trace := trace w |}).

Definition set_rmbg_net (n : option Handle) : M unit :=
  fun w => (Ok tt, {| triposg_pipe := triposg_pipe w; rmbg_net := n;
                      fs := fs w; trace := trace w |}).

(** ** Strings and paths *)

(** [s.lstrip("/")] *)
Fixpoint lstrip_slash (s : string) : string :=
  match s with
  | String "/"%char s' => lstrip_slash s'
  | _ => s
  end.

(** [s[:n]] *)
Definition str_take (n : nat) (s : string) : string := String.substring 0 n s.

(** [p / s] of [pathlib], POSIX flavour, on operands that are already in
    pathlib's normal form (no "." component, no repeated or trailing
    separator): an absolute right operand replaces the left one, an empty
    one leaves it.  On other operands pathlib drops the superfluous
    components and separators, which this function does not; on Windows a
    right operand with a drive or a UNC root replaces the left one as well.
    The operands the handlers build themselves (the module constants, the
    token names, "skin.json") are normal; a name taken from a request is
    normal unless the request puts such components into it. *)
Definition path_join (p s : string) : string :=
  match s with
  | "" => p
  | String "/"%char _ => s
  | _ => p +:+ "/" +:+ s
  end.
Infix "//" := path_join (at level 40, left associativity).

Fixpoint str_contains_slash (s : string) : bool :=
  match s with
  | "" => false
  | String "/"%char _ => true
  | String _ s' => str_contains_slash s'
  end.

Definition str_ends_with (suffix s : string) : bool :=
  let n := String.length s in
  let k := String.length suffix in
  (k <=? n)%nat && String.eqb (String.substring (n - k) k s) suffix.

(** Whether [p] is an entry [dir/name] with [name] ending in [suffix]. *)
Definition is_entry_with_suffix (dir suffix p : string) : bool :=
  let d := dir +:+ "/" in
  let k := String.length d in
  String.prefix d p &&
  (let name := String.substring k (String.length p - k) p in
   negb (str_contains_slash name) && str_ends_with suffix name).

(** ** Primitive effects *)

Definition add_event (ev : Event) (w : World) : World :=
  {| triposg_pipe := triposg_pipe w; rmbg_net := rmbg_net w;
     fs := fs w; trace := trace w ++ [ev] |}.

(** A third-party call: the environment answers, the call is recorded. *)
Definition extern (env : Env) {A} (c : Call A) : M A :=
  fun w => let r := respond env A c w in (r, add_event (Called c r) w).

(** [subprocess.run(cmd, cwd=cwd, capture_output=True, text=True,
    timeout=timeout)]: the external process may leave anything on disk,
    whether it exits, fails or is killed at the timeout. *)
Definition subprocess_run (env : Env) (cmd : list string) (cwd : string)
    (timeout : Z) : M CompletedProcess :=
  fun w =>
    let r := respond env _ (SubprocessRun cmd cwd timeout) w in
    (r, {| triposg_pipe := triposg_pipe w; rmbg_net := rmbg_net w;
           fs := subprocess_fs env cmd w;
           trace := trace w ++ [Called (SubprocessRun cmd cwd timeout) r] |}).

(** [Path.exists()] *)
Definition path_exists (p : string) : M bool :=
  fun w => (Ok (bool_decide (is_Some (fs w !! p))), w).

(** Writing a regular file at [p], as [scene.export(p)], [image.save(p)]
    and a write to an open file do.  The directory [p] lies in is taken to
    exist: the output directory is made when the module is loaded (line
    51), the temporary directory is the system's.  A name that leads into a
    directory that is not there makes the real write raise
    [FileNotFoundError]; [fs] does not keep track of directories the
    handlers never test, so this failure is not shown. *)
Definition write_file (p content : string) : M unit :=
  w <- get_world;;
  match fs w !! p with
  | Some Dir => raise (PyExc OSError ("Is a directory: " +:+ p))
  | _ => set_fs (<[p := File content]> (fs w));; emit (Wrote p)
  end.

(** [open(p, "wb")]: the file is created, or emptied when it is there; a
    directory cannot be opened.  The write that fills the file is recorded
    when it happens. *)
Definition open_wb (p : string) : M unit :=
  w <- get_world;;
  match fs w !! p with
  | Some Dir => raise (PyExc OSError ("Is a directory: " +:+ p))
  | _ => set_fs (<[p := File ""]> (fs w))
  end.

(** [os.unlink(p)] *)
Definition unlink (p : string) : M unit :=
  w <- get_world;;
  match fs w !! p with
  | Some (File _) => set_fs (delete p (fs w));; emit (Unlinked p)
  | _ => raise (PyExc OSError ("Cannot unlink: " +:+ p))
  end.

(** [p.mkdir(parents=True, exist_ok=True)] *)
Definition mkdir_p (p : string) : M unit :=
  w <- get_world;;
  match fs w !! p with
  | Some (File _) => raise (PyExc OSError ("File exists: " +:+ p))
  | _ => set_fs (<[p := Dir]> (fs w));; emit (MadeDir p)
  end.

(** [os.path.getsize(p)]; a directory's size is platform-defined and never
    asked for by a handler, which only sizes a file it has just written. *)
Definition getsize (p : string) : M Z :=
  w <- get_world;;
  match fs w !! p with
  | Some (File c) => ret (Z.of_nat (String.length c))
  | Some Dir => ret 0
  | None => raise (PyExc OSError ("No such file or directory: " +:+ p))
  end.

(** [open(p).read()] *)
Definition read_file (p : string) : M string :=
  w <- get_world;;
  match fs w !! p with
  | Some (File c) => ret c
  | Some Dir => raise (PyExc OSError ("Is a directory: " +:+ p))
  | None => raise (PyExc OSError ("No such file or directory: " +:+ p))
  end.

(** [len(list(dir.glob("*" + suffix)))] *)
Definition glob_count (dir suffix : string) : M Z :=
  w <- get_world;;
  ret (Z.of_nat (size (filter (fun p => is_entry_with_suffix dir suffix p = true)
                              (dom (fs w))))).

(** ** Python builtins on values *)

(** [d[k]] *)
Definition getitem (d : pydict) (k : string) : M pyval :=
  match d !! k with
  | Some v => ret v
  | None => raise (PyExc KeyError ("'" +:+ k +:+ "'"))
  end.

(** [d.get(k, dflt)] *)
Definition dict_get (d : pydict) (k : string) (dflt : pyval) : pyval :=
  default dflt (d !! k).

Fixpoint assoc_get (d : list (string * pyval)) (k : string) : option pyval :=
  match d with
  | [] => None
  | (k', v) :: d' => if String.eqb k' k then Some v else assoc_get d' k
  end.

(** [v.get(k, dflt)] on a parsed JSON value: only a dict has [get]. *)
Definition py_get (v : pyval) (k : string) (dflt : pyval) : M pyval :=
  match v with
  | VDict d => ret (default dflt (assoc_get d k))
  | _ => raise (PyExc AttributeError "object has no attribute 'get'")
  end.

(** The receiver of [v.lstrip("/")]: only a string has [lstrip]. *)
Definition py_str_method (v : pyval) : M string :=
  match v with
  | VStr s => ret s
  | _ => raise (PyExc AttributeError "object has no attribute 'lstrip'")
  end.

(** The characters of a string, each as a string of length one. *)
Fixpoint str_chars (s : string) : list pyval :=
  match s with
  | "" => []
  | String c s' => VStr (String c "") :: str_chars s'
  end.

(** [for r in v]: the items of a list, the characters of a string, the
    keys of a dict; anything else is not iterable. *)
Definition py_iter (v : pyval) : M (list pyval) :=
  match v with
  | VList l => ret l
  | VStr s => ret (str_chars s)
  | VDict d => ret (map (fun kv => VStr kv.1) d)
  | _ => raise (PyExc TypeError "object is not iterable")
  end.

(** [len(v)] *)
Definition py_len (v : pyval) : M Z :=
  match v with
  | VList l => ret (Z.of_nat (length l))
  | VStr s => ret (Z.of_nat (String.length s))
  | VDict d => ret (Z.of_nat (length d))
  | _ => raise (PyExc TypeError "object has no len()")
  end.

(** [[f(x) for x in l]] with an effectful [f]. *)
Fixpoint mapM {A B} (f : A -> M B) (l : list A) : M (list B) :=
  match l with
  | [] => ret []
  | x :: l' => y <- f x;; ys <- mapM f l';; ret (y :: ys)
  end.

(** ** Requests *)

Record UploadFile := { filename : string; file_content : string }.

(** The parameters of [generate_3d]. *)
Record GenerateParams := {
  file : UploadFile;
  num_inference_steps : Z;
  guidance_scale : float;
  seed : Z;
  faces : Z
}.

(** [parts: list[dict]], each part a dict with "path" and, optionally,
    "position" and "rotation". *)
Record MergeRequest := {
  parts : list pydict;
  output_name : string
}.

(** [rig_output_name] is the field [output_name] of the source's
    [RigRequest]. *)
Record RigRequest := {
  glb_path : string;
  rig_output_name : string
}.

Record SearchImageRequest := {
  query : string;
  remove_bg : bool
}.

(** ** The server *)

Section Server.
Context (env : Env).

Definition TOOLS_DIR : string := PROJECT_ROOT env // "tools".
Definition UNIRIG_DIR : string := TOOLS_DIR // "UniRig".
Definition OUTPUT_DIR : string :=
  PROJECT_ROOT env // "public" // "parts" // "generated".
Definition TRIPOSG_DIR : string := TOOLS_DIR // "3d-gen" // "TripoSG-model".
Definition TRIPOSG_WEIGHTS : string :=
  TRIPOSG_DIR // "pretrained_weights" // "TripoSG".
Definition RMBG_WEIGHTS : string :=
  TRIPOSG_DIR // "pretrained_weights" // "RMBG-1.4".

(** *** Lazy loading of the TripoSG pipeline and RMBG *)

(** The [try] body of [get_triposg_models]. *)
Definition load_triposg_models : M (option Handle * option Handle) :=
  extern env (PyImport "torch");;
  extern env (PyImport "huggingface_hub");;
  extern env (PyImport "triposg.pipelines.pipeline_triposg");;
  extern env (PyImport "briarmbg");;
  cuda <- extern env CudaIsAvailable;;
  let device := if cuda : bool then "cuda" else "cpu" in
  let dtype := if cuda : bool then "float16" else "float32" in
  extern env (SnapshotDownload "VAST-AI/TripoSG" TRIPOSG_WEIGHTS);;
  extern env (SnapshotDownload "briaai/RMBG-1.4" RMBG_WEIGHTS);;
  net <- extern env (RmbgFromPretrained RMBG_WEIGHTS device);;
  set_rmbg_net (Some net);;
  extern env (RmbgEval net);;
  pipe <- extern env (PipeFromPretrained TRIPOSG_WEIGHTS device dtype);;
  set_triposg_pipe (Some pipe);;
  w <- get_world;;
  ret (triposg_pipe w, rmbg_net w).

(** Lazy-load TripoSG pipeline + RMBG on first use.  Both [except] clauses
    return [(None, None)]. *)
Definition get_triposg_models : M (option Handle * option Handle) :=
  w <- get_world;;
  match triposg_pipe w with
  | Some _ => ret (triposg_pipe w, rmbg_net w)
  | None =>
      try_except load_triposg_models
        (fun e => if is_ImportError e then ret (None, None)
                  else ret (None, None))
  end.

(** Free TripoSG from VRAM when needed by other models. *)
Definition unload_triposg : M unit :=
  w <- get_world;;
  if bool_decide (is_Some (triposg_pipe w)) || bool_decide (is_Some (rmbg_net w))
  then
    extern env (PyImport "torch");;
    set_triposg_pipe None;;
    set_rmbg_net None;;
    extern env EmptyCache
  else ret tt.

(** The functions without parameters that server.py binds at module
    level.  Calling any other name raises [NameError]. *)
Definition module_functions : list (string * M unit) :=
  [ ("get_triposg_models", (get_triposg_models;; ret tt));
    ("unload_triposg", unload_triposg) ].

(** [name()] for a module-level name. *)
Definition call_global (name : string) : M unit :=
  match list_find (fun nf => String.eqb nf.1 name = true) module_functions with
  | Some (_, (_, f)) => f
  | None => raise (PyExc NameError ("name '" +:+ name +:+ "' is not defined"))
  end.

(** *** GET /health, GET /status *)

(** Health check. *)
Definition health : M pydict :=
  now <- extern env TimeNow;;
  ret ({[ "status" := VStr "ok"; "timestamp" := VFloat now ]} : pydict).

(** GPU and VRAM status; both [try] blocks swallow every exception. *)
Definition status : M pydict :=
  gpu_info <-
    try_except
      (extern env (PyImport "torch");;
       available <- extern env CudaIsAvailable;;
       if available : bool then
         stats <- extern env GpuStats;;
         ret (VDict (("available", VBool true) :: stats))
       else ret (VDict [("available", VBool false)]))
      (fun e => ret (VDict [("available", VBool false);
                            ("error", VStr (str_exn e))]));;
  generated <- try_except (glob_count OUTPUT_DIR ".glb") (fun _ => ret 0);;
  w <- get_world;;
  ret ({[ "gpu" := gpu_info;
          "triposg_loaded" := VBool (bool_decide (is_Some (triposg_pipe w)));
          "output_dir" := VStr OUTPUT_DIR;
          "generated_parts" := VInt generated ]} : pydict).

(** *** POST /generate *)

(** The [try] body of the optional face reduction. *)
Definition reduce_faces_attempt (target : Z) (mesh : Mesh) : M Mesh :=
  extern env (PyImport "pymeshlab");;
  cm <- extern env (Decimate mesh target);;
  extern env (TrimeshNew cm.1 cm.2).

(** [if faces > 0 and mesh.faces.shape[0] > faces: try ... except] *)
Definition reduce_faces (target : Z) (mesh : Mesh) : M Mesh :=
  if ((0 <? target) && (target <? Z.of_nat (length (mesh_faces mesh))))%Z
  then try_except (reduce_faces_attempt target mesh) (fun e => ret mesh)
  else ret mesh.

(** Lines 251-291 of the [try] body: decode the upload, preprocess it
    through a temporary file, run the pipeline and build the mesh.
    Returns the start time of the inference with the mesh. *)
Definition reconstruct (pipe : Handle) (rmbg : option Handle)
    (req : GenerateParams) : M (float * Mesh) :=
  extern env (PyImport "torch");;
  extern env (PyImport "image_process");;
  extern env (PyImport "tempfile");;
  let image_data := file_content (file req) in
  image <- extern env (ImageOpen image_data);;
  tmp_path <- extern env (MkTemp ".png");;
  write_file tmp_path "";;
  png <- extern env (ImageEncode image "PNG");;
  write_file tmp_path png;;
  img_pil <- try_finally (extern env (PrepareImage tmp_path rmbg))
                         (unlink tmp_path);;
  start <- extern env TimeNow;;
  outputs <- extern env (Inference pipe img_pil (seed req)
                           (num_inference_steps req) (guidance_scale req));;
  mesh <- extern env (TrimeshNew outputs.1 outputs.2);;
  ret (start, mesh).

(** Lines 316-320: a fresh name, the export, the size for the log line.
    Returns [part_id].  For a single mesh and a file name, [mesh.export]
    opens the target for writing, then runs the exporter and writes its
    bytes: an exporter that raises leaves the file it opened, empty. *)
Definition save_glb (mesh : Mesh) : M string :=
  hex <- extern env Uuid4Hex;;
  let part_id := "gen_" +:+ str_take 8 hex in
  let output_path := OUTPUT_DIR // (part_id +:+ ".glb") in
  open_wb output_path;;
  glb <- extern env (MeshExport mesh output_path);;
  write_file output_path glb;;
  getsize output_path;;
  ret part_id.

(** The [try] body of [generate_3d]. *)
Definition generate_body (pipe : Handle) (rmbg : option Handle)
    (req : GenerateParams) : M pydict :=
  sm <- reconstruct pipe rmbg req;;
  mesh <- reduce_faces (faces req) sm.2;;
  finish <- extern env TimeNow;;
  let elapsed := PrimFloat.sub finish sm.1 in
  part_id <- save_glb mesh;;
  ret ({[ "part_id" := VStr part_id;
          "glb_path" := VStr ("/parts/generated/" +:+ part_id +:+ ".glb");
          "vertices" := VInt (Z.of_nat (length (mesh_vertices mesh)));
          "faces" := VInt (Z.of_nat (length (mesh_faces mesh)));
          "elapsed_s" := VFloat (round2 env elapsed) ]} : pydict).

(** Generate a 3D .glb mesh from an uploaded image using TripoSG. *)
Definition generate_3d (req : GenerateParams) : M pydict :=
  models <- get_triposg_models;;
  match models.1 with
  | None =>
      raise (HTTPException 503
               "TripoSG model not available. Install dependencies first.")
  | Some pipe =>
      try_except (generate_body pipe models.2 req)
        (fun e => raise (HTTPException 500
                           ("Generation failed: " +:+ str_exn e)))
  end.

(** *** POST /search-image *)

Definition search_result_entry (r : pydict) : M pyval :=
  url <- getitem r "image";;
  ret (VDict [("url", url); ("title", dict_get r "title" (VStr ""))]).

(** [with DDGS() as ddgs: results = list(ddgs.images(q, max_results=5))],
    after the import of the library. *)
Definition ddgs_search (q : string) : M (list pydict) :=
  extern env (PyImport "duckduckgo_search");;
  extern env (DdgsImages q 5).

(** Lines 376-378: a fresh name and [image.save]. Returns [img_id]. *)
Definition save_png (image : Image) : M string :=
  hex <- extern env Uuid4Hex;;
  let img_id := "ref_" +:+ str_take 8 hex in
  let img_path := OUTPUT_DIR // (img_id +:+ ".png") in
  png <- extern env (ImageEncode image "PNG");;
  write_file img_path png;;
  ret img_id.

(** The [try] body of [search_image]. *)
Definition search_body (req : SearchImageRequest) : M pydict :=
  results <- ddgs_search (query req);;
  match results with
  | [] =>
      ret ({[ "images" := VList []; "message" := VStr "No images found" ]}
           : pydict)
  | first :: _ =>
      extern env (PyImport "httpx");;
      image_url <- getitem first "image";;
      content <- extern env (HttpGet image_url 10);;
      image <- extern env (ImageOpen content);;
      image <- extern env (ImageConvert image "RGBA");;
      image <-
        (if remove_bg req then
           try_except
             (extern env (PyImport "rembg");;
              extern env (RembgRemove image))
             (fun e => if is_ImportError e then ret image else raise e)
         else ret image);;
      img_id <- save_png image;;
      all_results <- mapM search_result_entry (take 5 results);;
      ret ({[ "image_id" := VStr img_id;
              "image_path" := VStr ("/parts/generated/" +:+ img_id +:+ ".png");
              "source_url" := image_url;
              "size" := VList [VInt (width image); VInt (height image)];
              "all_results" := VList all_results ]} : pydict)
  end.

(** Search for a reference image and optionally remove background. *)
Definition search_image (req : SearchImageRequest) : M pydict :=
  try_except (search_body req)
    (fun e =>
       if is_ImportError e then
         raise (HTTPException 503
                  "duckduckgo_search not installed. pip install duckduckgo_search httpx")
       else raise (HTTPException 500 ("Image search failed: " +:+ str_exn e))).

(** *** POST /merge *)

Definition zero3 : pyval := VList [VInt 0; VInt 0; VInt 0].

(** [compose_matrix(translate=pos, angles=[np.radians(r) for r in rot])] *)
Definition part_transform (pos rot : pyval) : M Matrix :=
  rs <- py_iter rot;;
  angles <- mapM (fun r => extern env (NpRadians r)) rs;;
  extern env (ComposeMatrix pos angles).

(** The [add_geometry] calls for one loaded part. *)
Definition add_part (combined : Scene) (i : nat) (mesh : Loaded)
    (transform : Matrix) : Scene :=
  match mesh with
  | LoadedScene geometry =>
      (combined ++
       map (fun ng => {| node_name := "part_" +:+ pretty i +:+ "_" +:+ ng.1;
                         node_geom := ng.2;
                         node_transform := transform |}) geometry)%list
  | LoadedMesh m =>
      (combined ++ [{| node_name := "part_" +:+ pretty i;
                       node_geom := m;
                       node_transform := transform |}])%list
  end.

(** One iteration of the loop over [enumerate(req.parts)]. *)
Definition merge_part (combined : Scene) (i : nat) (part : pydict) : M Scene :=
  path_value <- getitem part "path";;
  path <- py_str_method path_value;;
  let part_path := PROJECT_ROOT env // lstrip_slash path in
  found <- path_exists part_path;;
  if negb found then
    raise (HTTPException 404 ("Part not found: " +:+ path))
  else
    mesh <- extern env (MeshLoad part_path);;
    let pos := dict_get part "position" zero3 in
    let rot := dict_get part "rotation" zero3 in
    transform <- part_transform pos rot;;
    ret (add_part combined i mesh transform).

Fixpoint merge_loop (combined : Scene) (i : nat) (ps : list pydict) : M Scene :=
  match ps with
  | [] => ret combined
  | part :: rest =>
      combined' <- merge_part combined i part;;
      merge_loop combined' (S i) rest
  end.

Definition merge_output_path (req : MergeRequest) : string :=
  OUTPUT_DIR // (output_name req +:+ ".glb").

(** Merge multiple GLB parts into a single mesh using trimesh.  The body
    is not wrapped in a [try]. *)
Definition merge_parts (req : MergeRequest) : M pydict :=
  combined <- merge_loop [] 0 (parts req);;
  let output_path := merge_output_path req in
  glb <- extern env (SceneExport combined output_path);;
  write_file output_path glb;;
  getsize output_path;;
  file_size <- getsize output_path;;
  ret ({[ "merged_path" :=
            VStr ("/parts/generated/" +:+ output_name req +:+ ".glb");
          "parts_count" := VInt (Z.of_nat (length (parts req)));
          "file_size" := VInt file_size ]} : pydict).

(** *** POST /rig *)

Definition rig_work_dir (req : RigRequest) : string :=
  OUTPUT_DIR // ("rig_" +:+ rig_output_name req).

(** The [try] body of [rig_bot]. *)
Definition rig_pipeline (req : RigRequest) (mesh_path : string) : M pydict :=
  let work_dir := rig_work_dir req in
  mkdir_p work_dir;;
  let skin_export_script := UNIRIG_DIR // "export_skin_json.py" in
  let venv_python := UNIRIG_DIR // "venv" // "Scripts" // "python.exe" in
  has_venv <- path_exists venv_python;;
  let unirig_python := if has_venv : bool then venv_python
                       else sys_executable env in
  let skel_cmd :=
    [ unirig_python; "-m"; "src.main";
      "input.mesh_path=" +:+ mesh_path;
      "resources.skeleton_config=configs/task/quick_inference_skel_win.yaml";
      "output.directory=" +:+ work_dir ] in
  skel_result <- subprocess_run env skel_cmd UNIRIG_DIR 120;;
  if negb (returncode skel_result =? 0)%Z then
    raise (HTTPException 500 ("Skeleton prediction failed: "
                              +:+ str_take 500 (stderr skel_result)))
  else
  let skin_cmd :=
    [ unirig_python; "-m"; "src.main";
      "input.mesh_path=" +:+ mesh_path;
      "resources.skin_config=configs/task/quick_inference_skin_win.yaml";
      "output.directory=" +:+ work_dir ] in
  skin_result <- subprocess_run env skin_cmd UNIRIG_DIR 120;;
  if negb (returncode skin_result =? 0)%Z then
    raise (HTTPException 500 ("Skin prediction failed: "
                              +:+ str_take 500 (stderr skin_result)))
  else
  let skin_json_path := work_dir // "skin.json" in
  has_script <- path_exists skin_export_script;;
  (if has_script : bool then
     let export_cmd :=
       [ unirig_python; skin_export_script;
         work_dir // "predict_skin.npz"; skin_json_path ] in
     export_result <- subprocess_run env export_cmd UNIRIG_DIR 30;;
     ret tt
   else ret tt);;
  has_json <- path_exists skin_json_path;;
  if has_json : bool then
    text <- read_file skin_json_path;;
    skin_data <- extern env (JsonLoads text);;
    bones <- py_get skin_data "bones" (VList []);;
    bone_count <- py_len bones;;
    weights <- py_get skin_data "weights" (VList []);;
    vertex_count <- py_len weights;;
    ret ({[ "output_dir" := VStr work_dir;
            "glb_input" := VStr (glb_path req);
            "skin_json" := VStr ("/parts/generated/rig_"
                                 +:+ rig_output_name req +:+ "/skin.json");
            "bone_count" := VInt bone_count;
            "vertex_count" := VInt vertex_count ]} : pydict)
  else
    ret ({[ "output_dir" := VStr work_dir;
            "glb_input" := VStr (glb_path req);
            "skin_json" := VNone;
            "message" := VStr "Rigging completed but skin.json not generated" ]}
         : pydict).

(** The [except] clauses of [rig_bot], in order. *)
Definition rig_except (e : exn) : M pydict :=
  if is_TimeoutExpired e then
    raise (HTTPException 504 "Rigging timed out (120s limit)")
  else if is_HTTPException e then raise e
  else raise (HTTPException 500 ("Rigging failed: " +:+ str_exn e)).

(** Auto-rig a GLB mesh using the UniRig pipeline.  The existence check
    and the call of [unload_triposr] come before the [try]. *)
Definition rig_bot (req : RigRequest) : M pydict :=
  let mesh_path := PROJECT_ROOT env // lstrip_slash (glb_path req) in
  found <- path_exists mesh_path;;
  if negb found then
    raise (HTTPException 404 ("GLB not found: " +:+ glb_path req))
  else
    call_global "unload_triposr";;
    try_except (rig_pipeline req mesh_path) rig_except.

(** *** GET /parts/generated/{filename} *)

(** Serve generated files from the output directory: the path handed to
    [FileResponse].  This is the handler; which names reach it is decided
    by the route, [route_generated] below. *)
Definition serve_generated (name : string) : M string :=
  let file_path := OUTPUT_DIR // name in
  found <- path_exists file_path;;
  if negb found then raise (HTTPException 404 ("File not found: " +:+ name))
  else ret file_path.

(** The route [/parts/generated/{filename}] (line 566): a path parameter
    matches one segment, not empty and without "/"; any other request
    path under the prefix matches no route and is answered by the router
    with its own 404, the handler not being called. *)
Definition route_generated (rest : string) : M string :=
  match rest with
  | "" => raise (HTTPException 404 "Not Found")
  | _ => if str_contains_slash rest then raise (HTTPException 404 "Not Found")
         else serve_generated rest
  end.

End Server.

(** ** The service as a whole *)

Inductive Request :=
| GetHealth
| GetStatus
| PostGenerate (req : GenerateParams)
| PostSearchImage (req : SearchImageRequest)
| PostMerge (req : MergeRequest)
| PostRig (req : RigRequest)
| GetGenerated (name : string).


(** The world a request leaves behind, whatever it answers. *)
Definition serve (env : Env) (r : Request) (w : World) : World :=
  match r with
  | GetHealth => (health env w).2
  | GetStatus => (status env w).2
  | PostGenerate req => (generate_3d env req w).2
  | PostSearchImage req => (search_image env req w).2
  | PostMerge req => (merge_parts env req w).2
  | PostRig req => (rig_bot env req w).2
  | GetGenerated name => (route_generated env name w).2
  end.

Definition serve_all (env : Env) (rs : list Request) (w : World) : World :=
  foldl (fun w r => serve env r w) w rs.

(** The process right after start: nothing loaded (lines 65-66). *)
Definition started (w : World) : Prop :=
  triposg_pipe w = None /\ rmbg_net w = None.

(** What an answer holds under key [k], [None] for a failure. *)
Definition field (r : Result pydict) (k : string) : option pyval :=
  match r with
  | Ok resp => resp !! k
  | Raise _ => None
  end.

Definition is_ok {A} (r : Result A) : bool :=
  match r with Ok _ => true | Raise _ => false end.

(** ** Relations on worlds *)

(** A computation respects a preorder on worlds when every run, returning
    or raising, ends in a world related to the one it started in. *)
Definition respects (R : relation World) {A} (m : M A) : Prop :=
  forall w, R w (m w).2.

(** A computation ensures [Q] when every run relates its start, its
    result and its end by [Q]. *)
Definition ensures {A} (Q : World -> Result A -> World -> Prop) (m : M A) : Prop :=
  forall w, Q w (m w).1 (m w).2.

Definition pipe_untouched (w w' : World) : Prop :=
  triposg_pipe w' = triposg_pipe w.

(** The outcome of a load attempt, seen from the globals. *)
Definition loaded_or_untouched (w : World)
    (r : Result (option Handle * option Handle)) (w' : World) : Prop :=
  match r with
  | Ok (p, n) => is_Some p /\ triposg_pipe w' = p /\ rmbg_net w' = n
  | Raise _ => triposg_pipe w' = triposg_pipe w
  end.

(** *** Relations that only look at the two module globals *)

Class ModelsOnly (R : relation World) : Prop :=
  models_only : forall w w',
    triposg_pipe w' = triposg_pipe w -> rmbg_net w' = rmbg_net w -> R w w'.

Definition same_models (w w' : World) : Prop :=
  triposg_pipe w' = triposg_pipe w /\ rmbg_net w' = rmbg_net w.

Definition stays_loaded (w w' : World) : Prop :=
  is_Some (triposg_pipe w) -> is_Some (triposg_pipe w').

(** [w'] continues [w] with events that all satisfy [P]. *)
Definition extends_with (P : Event -> Prop) (w w' : World) : Prop :=
  exists evs, trace w' = trace w ++ evs /\ Forall P evs.

Definition same_fs (w w' : World) : Prop := fs w' = fs w.


Definition is_write (ev : Event) : bool :=
  match ev with
  | Wrote _ | MadeDir _ => true
  | _ => false
  end.

(** ** Concrete environments and worlds used in examples *)

(** Nothing is installed: every third-party call fails on import. *)
Definition env_bare : Env :=
  {| PROJECT_ROOT := "/srv/battle-bots";
     sys_executable := "/usr/bin/python3";
     respond := fun A _ _ => Raise (PyExc ImportError "No module named 'torch'");
     subprocess_fs := fun _ w => fs w;
     round2 := fun x => x |}.

Definition world0 : World :=
  {| triposg_pipe := None; rmbg_net := None; fs := ∅; trace := [] |}.

Definition upload0 : UploadFile :=
  {| filename := "bot.png"; file_content := "PNG" |}.

(** The defaults of [generate_3d]'s parameters with a face budget. *)
Definition generate_req (budget : Z) : GenerateParams :=
  {| file := upload0; num_inference_steps := 50;
     guidance_scale := 7.0%float; seed := 42; faces := budget |}.

(** A small closed mesh: a tetrahedron. *)
Definition tetra_vertices : list (float * float * float) :=
  [ (0.0, 0.0, 0.0); (1.0, 0.0, 0.0); (0.0, 1.0, 0.0); (0.0, 0.0, 1.0) ]%float.

Definition tetra_faces : list (Z * Z * Z) :=
  [ (0, 1, 2); (0, 1, 3); (0, 2, 3); (1, 2, 3) ].

Definition tetra : Mesh :=
  {| mesh_vertices := tetra_vertices; mesh_faces := tetra_faces |}.

Definition identity_matrix : Matrix :=
  [ [1.0; 0.0; 0.0; 0.0]; [0.0; 1.0; 0.0; 0.0];
    [0.0; 0.0; 1.0; 0.0]; [0.0; 0.0; 0.0; 1.0] ]%float.

(** Every library is installed and every call goes well: reconstruction
    yields the tetrahedron, the simplifier keeps the first [targetfacenum]
    faces, the search finds nothing, external processes exit with 0. *)
Definition respond_ok (A : Type) (c : Call A) (w : World) : Result A :=
  match c in Call T return Result T with
  | PyImport _ => Ok tt
  | CudaIsAvailable => Ok true
  | GpuStats => Ok [("name", VStr "GPU 0")]
  | SnapshotDownload _ _ => Ok tt
  | RmbgFromPretrained _ _ => Ok 1%nat
  | RmbgEval _ => Ok tt
  | PipeFromPretrained _ _ _ => Ok 2%nat
  | EmptyCache => Ok tt
  | TimeNow => Ok 0.0%float
  | ImageOpen data => Ok {| width := 512; height := 512; pixels := data |}
  | ImageConvert img _ => Ok img
  | ImageEncode img _ => Ok (pixels img)
  | MkTemp suffix => Ok ("/tmp/tmp0" +:+ suffix)
  | PrepareImage path _ => Ok {| width := 512; height := 512; pixels := path |}
  | Inference _ _ _ _ _ => Ok (tetra_vertices, tetra_faces)
  | TrimeshNew vs fcs => Ok {| mesh_vertices := vs; mesh_faces := fcs |}
  | Decimate m target => Ok (mesh_vertices m, take (Z.to_nat target) (mesh_faces m))
  | Uuid4Hex => Ok "3f2a9c01d4e84b7a9b1c5d6e7f809a1b"
  | MeshExport _ _ => Ok "glTF"
  | SceneExport _ _ => Ok "glTF"
  | DdgsImages _ _ => Ok []
  | HttpGet _ _ => Ok "PNG"
  | RembgRemove img => Ok img
  | MeshLoad _ => Ok (LoadedMesh tetra)
  | NpRadians _ => Ok 0.0%float
  | ComposeMatrix _ _ => Ok identity_matrix
  | SubprocessRun _ _ _ => Ok {| returncode := 0; stdout := ""; stderr := "" |}
  | JsonLoads _ => Ok (VDict [])
  end.

Definition env_ok : Env :=
  {| PROJECT_ROOT := "/srv/battle-bots";
     sys_executable := "/usr/bin/python3";
     respond := respond_ok;
     subprocess_fs := fun _ w => fs w;
     round2 := fun x => x |}.

(** The service after a successful [/generate]: both models resident, the
    generated part on disk, the UniRig export script installed. *)
Definition world_loaded : World :=
  {| triposg_pipe := Some 2%nat;
     rmbg_net := Some 1%nat;
     fs := {[ "/srv/battle-bots/public/parts/generated/gen_3f2a9c01.glb" := File "glTF";
              "/srv/battle-bots/tools/UniRig/export_skin_json.py" := File "import json" ]};
     trace := [] |}.

Definition rig_req0 : RigRequest :=
  {| glb_path := "/public/parts/generated/gen_3f2a9c01.glb";
     rig_output_name := "rigged_bot" |}.

(** As [env_ok], but the skin-JSON conversion (the subprocess run with the
    30 second limit) does not finish in time. *)
Definition env_slow_export : Env :=
  {| PROJECT_ROOT := "/srv/battle-bots";
     sys_executable := "/usr/bin/python3";
     respond := fun A c w =>
       match c in Call T return Result T with
       | SubprocessRun cmd cwd timeout =>
           if (timeout =? 30)%Z
           then Raise (PyExc TimeoutExpired "Command timed out after 30 seconds")
           else Ok {| returncode := 0; stdout := ""; stderr := "" |}
       | c' => respond_ok _ c' w
       end;
     subprocess_fs := fun _ w => fs w;
     round2 := fun x => x |}.

(** As [env_ok], but the conversion script exits with status 1 and writes
    nothing. *)
Definition env_failed_export : Env :=
  {| PROJECT_ROOT := "/srv/battle-bots";
     sys_executable := "/usr/bin/python3";
     respond := fun A c w =>
       match c in Call T return Result T with
       | SubprocessRun cmd cwd timeout =>
           if (timeout =? 30)%Z
           then Ok {| returncode := 1; stdout := ""; stderr := "no npz" |}
           else Ok {| returncode := 0; stdout := ""; stderr := "" |}
       | c' => respond_ok _ c' w
       end;
     subprocess_fs := fun _ w => fs w;
     round2 := fun x => x |}.

(** As [env_ok], but the file handed to [trimesh.load] is not a mesh. *)
Definition env_bad_mesh : Env :=
  {| PROJECT_ROOT := "/srv/battle-bots";
     sys_executable := "/usr/bin/python3";
     respond := fun A c w =>
       match c in Call T return Result T with
       | MeshLoad _ => Raise (PyExc (OtherError "ValueError") "File type not supported")
       | c' => respond_ok _ c' w
       end;
     subprocess_fs := fun _ w => fs w;
     round2 := fun x => x |}.

Definition part_at (path : string) : pydict := {[ "path" := VStr path ]}.

Definition merge_req_generated : MergeRequest :=
  {| parts := [ part_at "/public/parts/generated/gen_3f2a9c01.glb" ];
     output_name := "merged_bot" |}.


(** A request whose second part names a file that is not there, after a
    first part that is fine. *)
Definition merge_req_second_missing : MergeRequest :=
  {| parts := [ part_at "/public/parts/generated/gen_3f2a9c01.glb";
                part_at "/public/parts/missing.glb";
                part_at "/public/parts/generated/gen_3f2a9c01.glb" ];
     output_name := "merged_bot" |}.

(** What C10 says happens to a part whose file is there, written out from
    the claim: the file is loaded, the transform is composed from the
    translation [pos] and the radians of the angles [rs], and the part is
    added to the scene under its index.  The claim is that for a part
    without "position", [pos] is [[0, 0, 0]], and for a part without
    "rotation", [rs] is three zeros. *)
Definition merge_part_with (env : Env) (combined : Scene) (i : nat)
    (part_path : string) (pos : pyval) (rs : list pyval) : M Scene :=
  mesh <- extern env (MeshLoad part_path);;
  angles <- mapM (fun r => extern env (NpRadians r)) rs;;
  transform <- extern env (ComposeMatrix pos angles);;
  ret (add_part combined i mesh transform).

(** The kinds of asset that get a token name (section 3 of the spec). *)
Inductive OutputKind :=
| GeneratedMesh
| ReferenceImage.

(** The path of the asset of kind [k] named after the uuid [hex]. *)
Definition token_path (env : Env) (k : OutputKind) (hex : string) : string :=
  match k with
  | GeneratedMesh => OUTPUT_DIR env // ("gen_" +:+ str_take 8 hex +:+ ".glb")
  | ReferenceImage => OUTPUT_DIR env // ("ref_" +:+ str_take 8 hex +:+ ".png")
  end.

(** The run that ended in [w] drew the uuid [hex], made one more call and
    finished by writing [path]. *)
Definition drew_and_wrote (w : World) (hex path : string) : Prop :=
  exists evs (A : Type) (c : Call A) (r : Result A),
    trace w = evs ++ [Called Uuid4Hex (Ok hex); Called c r; Wrote path].

(** The contract of the two libraries behind the face reduction, as
    answers of the environment.  pymeshlab's quadric edge collapse, asked
    for a positive [targetfacenum], returns a face matrix with at most
    that many rows whenever it returns; [trimesh.Trimesh(vertices, faces)]
    builds a mesh with no more faces than it is given (its processing may
    drop faces, it adds none). *)
Definition simplifier_honours_target (env : Env) : Prop :=
  (forall mesh targetfacenum w vs fcs,
     0 < targetfacenum ->
     respond env _ (Decimate mesh targetfacenum) w = Ok (vs, fcs) ->
     Z.of_nat (length fcs) <= targetfacenum)
  /\ (forall vs fcs w mesh,
        respond env _ (TrimeshNew vs fcs) w = Ok mesh ->
        (length (mesh_faces mesh) <= length fcs)%nat).

(** Two requests with different parts and the same (default) output name. *)
Definition merge_req_twice : MergeRequest :=
  {| parts := [ part_at "/public/parts/generated/gen_3f2a9c01.glb";
                part_at "/public/parts/generated/gen_3f2a9c01.glb" ];
     output_name := "merged_bot" |}.

(** ** The rest of the service: lifecycle, invariants, environments *)

(** The shutdown half of [lifespan] (lines 129-131): the models are
    released when the service stops. *)
Definition lifespan_shutdown (env : Env) : M unit := unload_triposg env.

(** A loaded pipeline comes with a loaded RMBG network. *)
Definition pair_resident (w : World) : Prop :=
  is_Some (triposg_pipe w) -> is_Some (rmbg_net w).

Definition keeps_pair (w w' : World) : Prop :=
  pair_resident w -> pair_resident w'.

(** The outcome of a load attempt: on success both handles, now in the
    globals; on failure the pipeline global as before. *)
Definition loaded_both_or_untouched (w : World)
    (r : Result (option Handle * option Handle)) (w' : World) : Prop :=
  match r with
  | Ok (p, n) => is_Some p /\ is_Some n /\ triposg_pipe w' = p /\ rmbg_net w' = n
  | Raise _ => triposg_pipe w' = triposg_pipe w
  end.

Definition is_subprocess (ev : Event) : bool :=
  match ev with
  | Called c _ => match c with SubprocessRun _ _ _ => true | _ => false end
  | _ => false
  end.

(** The two configuration arguments that tell the mandatory steps apart. *)
Definition skeleton_flag : string :=
  "resources.skeleton_config=configs/task/quick_inference_skel_win.yaml".

Definition skin_flag : string :=
  "resources.skin_config=configs/task/quick_inference_skin_win.yaml".

(** The answer of [rig_bot]'s [try] block to a mandatory step that ended
    with [r]: 504 for a timeout, 500 with at most 500 characters of the
    step's stderr for a nonzero exit status. *)
Definition hard_failure (step : string) (r : Result CompletedProcess) : exn :=
  match r with
  | Ok cp => HTTPException 500 (step +:+ " prediction failed: "
                                +:+ str_take 500 (stderr cp))
  | Raise _ => HTTPException 504 "Rigging timed out (120s limit)"
  end.

(** A mandatory step failed hard: it ran into its time limit or exited
    with a nonzero status. *)
Definition failed_hard (r : Result CompletedProcess) : Prop :=
  match r with
  | Ok cp => returncode cp <> 0
  | Raise e => is_TimeoutExpired e = true
  end.

(** As [env_ok], but skeleton prediction exits with status 2. *)
Definition env_failed_skeleton : Env :=
  {| PROJECT_ROOT := "/srv/battle-bots";
     sys_executable := "/usr/bin/python3";
     respond := fun A c w =>
       match c in Call T return Result T with
       | SubprocessRun cmd cwd timeout =>
           Ok {| returncode := 2; stdout := ""; stderr := "CUDA out of memory" |}
       | c' => respond_ok _ c' w
       end;
     subprocess_fs := fun _ w => fs w;
     round2 := fun x => x |}.

(** As [env_ok], but skin prediction (the command whose fifth argument is
    [skin_flag]) exits with status 1. *)
Definition env_failed_skin : Env :=
  {| PROJECT_ROOT := "/srv/battle-bots";
     sys_executable := "/usr/bin/python3";
     respond := fun A c w =>
       match c in Call T return Result T with
       | SubprocessRun cmd cwd timeout =>
           if bool_decide (cmd !! 4%nat = Some skin_flag)
           then Ok {| returncode := 1; stdout := ""; stderr := "no skeleton" |}
           else Ok {| returncode := 0; stdout := ""; stderr := "" |}
       | c' => respond_ok _ c' w
       end;
     subprocess_fs := fun _ w => fs w;
     round2 := fun x => x |}.

(** As [env_ok], but the image search finds two candidates, the second
    without a title. *)
Definition env_found : Env :=
  {| PROJECT_ROOT := "/srv/battle-bots";
     sys_executable := "/usr/bin/python3";
     respond := fun A c w =>
       match c in Call T return Result T with
       | DdgsImages _ _ =>
           Ok [ {[ "image" := VStr "https://example.org/arm.png";
                   "title" := VStr "Robot arm" ]};
                {[ "image" := VStr "https://example.org/claw.png" ]} ]
       | c' => respond_ok _ c' w
       end;
     subprocess_fs := fun _ w => fs w;
     round2 := fun x => x |}.

Definition search_req0 : SearchImageRequest :=
  {| query := "robot arm"; remove_bg := true |}.

(** As [env_ok], but a skin.json with two bones and three weighted vertices
    is in place after the rigging steps. *)
Definition env_rigged : Env :=
  {| PROJECT_ROOT := "/srv/battle-bots";
     sys_executable := "/usr/bin/python3";
     respond := fun A c w =>
       match c in Call T return Result T with
       | JsonLoads _ =>
           Ok (VDict [ ("bones", VList [VStr "root"; VStr "arm"]);
                       ("weights", VList [VList []; VList []; VList []]) ])
       | c' => respond_ok _ c' w
       end;
     subprocess_fs := fun _ w =>
       <["/srv/battle-bots/public/parts/generated/rig_rigged_bot/skin.json"
         := File "{}"]> (fs w);
     round2 := fun x => x |}.

(** The number [/status] reports as [generated_parts] for a file system:
    the entries of the output directory whose name ends in ".glb". *)
Definition count_glb (env : Env) (f : gmap string Node) : Z :=
  Z.of_nat (size (filter (fun p => is_entry_with_suffix (OUTPUT_DIR env) ".glb" p = true)
                         (dom f))).

(** [w'] continues [w], and on disk every path is as in [w] unless it is
    one of [own], was handed out as the name of a temporary file in
    between, or was the target of a mesh export in between. *)
Definition only_temps_touched (own : list string) (w w' : World) : Prop :=
  exists evs,
    trace w' = trace w ++ evs /\
    forall p, p ∉ own -> Called (MkTemp ".png") (Ok p) ∉ evs ->
              (forall mesh r, Called (MeshExport mesh p) r ∉ evs) ->
              fs w' !! p = fs w !! p.

(** What an [image.save] raised, when the event is a failed one. *)
Definition encode_failure (ev : Event) : option exn :=
  match ev with
  | Called c r =>
      match c in Call T return Result T -> option exn with
      | ImageEncode _ _ =>
          fun r => match r with Raise e => Some e | Ok _ => None end
      | _ => fun _ => None
      end r
  | _ => None
  end.

Definition is_unlink (ev : Event) : bool :=
  match ev with Unlinked _ => true | _ => false end.

(** As [env_ok], but no image can be saved as PNG. *)
Definition env_failed_encode : Env :=
  {| PROJECT_ROOT := "/srv/battle-bots";
     sys_executable := "/usr/bin/python3";
     respond := fun A c w =>
       match c in Call T return Result T with
       | ImageEncode _ _ => Raise (PyExc OSError "cannot write mode P as PNG")
       | c' => respond_ok _ c' w
       end;
     subprocess_fs := fun _ w => fs w;
     round2 := fun x => x |}.

(** As [env_ok], but the GLB exporter raises. *)
Definition env_failed_mesh_export : Env :=
  {| PROJECT_ROOT := "/srv/battle-bots";
     sys_executable := "/usr/bin/python3";
     respond := fun A c w =>
       match c in Call T return Result T with
       | MeshExport _ _ => Raise (PyExc (OtherError "ValueError") "cannot export")
       | c' => respond_ok _ c' w
       end;
     subprocess_fs := fun _ w => fs w;
     round2 := fun x => x |}.

(** As [env_ok], but the image search finds two candidates, the second
    without an image address. *)
Definition env_broken_candidate : Env :=
  {| PROJECT_ROOT := "/srv/battle-bots";
     sys_executable := "/usr/bin/python3";
     respond := fun A c w =>
       match c in Call T return Result T with
       | DdgsImages _ _ =>
           Ok [ {[ "image" := VStr "https://example.org/arm.png";
                   "title" := VStr "Robot arm" ]};
                {[ "title" := VStr "Robot claw" ]} ]
       | c' => respond_ok _ c' w
       end;
     subprocess_fs := fun _ w => fs w;
     round2 := fun x => x |}.

(** ** Reasoning about computations *)

Lemma bind_Ok_inv {A B} (m : M A) (f : A -> M B) w b w' :
  bind m f w = (Ok b, w') ->
  exists a w1, m w = (Ok a, w1) /\ f a w1 = (Ok b, w').
Proof.
  unfold bind. destruct (m w) as [[a|e] w1]; intros H; [eauto | discriminate].
Qed.

Lemma bind_assoc {A B C} (m : M A) (f : A -> M B) (g : B -> M C) w :
  bind (bind m f) g w = bind m (fun a => bind (f a) g) w.
Proof. unfold bind. by destruct (m w) as [[a|e] w1]. Qed.


Section Respects.
Context (R : relation World) `{!PreOrder R}.

Lemma respects_ret {A} (a : A) : respects R (ret a).
Proof. intros w. simpl. reflexivity. Qed.

Lemma respects_raise {A} (e : exn) : respects R (@raise A e).
Proof. intros w. simpl. reflexivity. Qed.

Lemma respects_get_world : respects R get_world.
Proof. intros w. simpl. reflexivity. Qed.

Lemma respects_path_exists p : respects R (path_exists p).
Proof. intros w. simpl. reflexivity. Qed.

Lemma respects_bind {A B} (m : M A) (f : A -> M B) :
  respects R m -> (forall a, respects R (f a)) -> respects R (bind m f).
Proof.
  intros Hm Hf w. unfold bind. specialize (Hm w).
  destruct (m w) as [[a|e] w1]; simpl in *; [| done].
  etrans; [exact Hm | apply Hf].
Qed.

Lemma respects_try_except {A} (m : M A) (h : exn -> M A) :
  respects R m -> (forall e, respects R (h e)) -> respects R (try_except m h).
Proof.
  intros Hm Hh w. unfold try_except. specialize (Hm w).
  destruct (m w) as [[a|e] w1]; simpl in *; [done |].
  etrans; [exact Hm | apply Hh].
Qed.

Lemma respects_try_finally {A} (m : M A) (fin : M unit) :
  respects R m -> respects R fin -> respects R (try_finally m fin).
Proof.
  intros Hm Hf w. unfold try_finally. specialize (Hm w).
  destruct (m w) as [r w1]. specialize (Hf w1).
  destruct (fin w1) as [[[]|e] w2]; simpl in *; etrans; eauto.
Qed.

Lemma respects_mapM {A B} (f : A -> M B) (l : list A) :
  (forall a, respects R (f a)) -> respects R (mapM f l).
Proof.
  intros Hf. induction l as [|x l IH]; simpl.
  - apply respects_ret.
  - apply respects_bind; [apply Hf | intros y].
    apply respects_bind; [apply IH | intros ys; apply respects_ret].
Qed.
End Respects.

(** A step that respects [R], followed by a continuation that ensures [Q],
    ensures [Q], when [Q] holds of a failure after an [R]-step and absorbs
    [R]-steps at its start. *)
Lemma ensures_bind (R : relation World) {A B}
    (Q : World -> Result B -> World -> Prop) (m : M A) (f : A -> M B) :
  respects R m ->
  (forall w e w', R w w' -> Q w (Raise e) w') ->
  (forall w w1 r w', R w w1 -> Q w1 r w' -> Q w r w') ->
  (forall a, ensures Q (f a)) ->
  ensures Q (bind m f).
Proof.
  intros Hm Hraise Hstep Hf w. unfold bind. specialize (Hm w).
  destruct (m w) as [[a|e] w1]; simpl in *.
  - eapply Hstep; [exact Hm | apply Hf].
  - by apply Hraise.
Qed.

(** Splits a goal [respects R m] along the structure of [m]; [prim] closes
    the primitive effects for the relation at hand. *)
Ltac respects_step prim :=
  lazymatch goal with
  | |- respects ?R (bind _ _) => apply (respects_bind R); [| intros ?]
  | |- respects ?R (try_except _ _) => apply (respects_try_except R); [| intros ?]
  | |- respects ?R (try_finally _ _) => apply (respects_try_finally R)
  | |- respects ?R (ret _) => apply (respects_ret R)
  | |- respects ?R (raise _) => apply (respects_raise R)
  | |- respects ?R get_world => apply (respects_get_world R)
  | |- respects ?R (path_exists _) => apply (respects_path_exists R)
  | |- respects ?R (mapM _ _) => apply (respects_mapM R); intros ?
  | |- respects _ (match ?x with _ => _ end) => destruct x
  | |- respects _ (let _ := _ in _) => cbv zeta
  | |- _ => prim
  end.
Ltac respects_tac prim := repeat (respects_step prim).


#[local] Instance same_models_preorder : PreOrder same_models.
Proof.
  split.
  - intros w. by split.
  - intros w1 w2 w3 [H1 H2] [H3 H4]. split; congruence.
Qed.

#[local] Instance same_models_only : ModelsOnly same_models.
Proof. intros w w' H1 H2. by split. Qed.

#[local] Instance stays_loaded_preorder : PreOrder stays_loaded.
Proof.
  split.
  - intros w H. exact H.
  - intros w1 w2 w3 H1 H2 H. auto.
Qed.

#[local] Instance stays_loaded_only : ModelsOnly stays_loaded.
Proof. intros w w' H1 H2 H. by rewrite H1. Qed.

Lemma call_unload_triposr env :
  call_global env "unload_triposr"
  = raise (PyExc NameError "name 'unload_triposr' is not defined").
Proof. reflexivity. Qed.

Section HandlersKeepModels.
Context (R : relation World) `{!PreOrder R} `{!ModelsOnly R} (env : Env).

Lemma mo_extern {A} (c : Call A) : respects R (extern env c).
Proof. intros w. by apply models_only. Qed.

Lemma mo_subprocess_run cmd cwd t : respects R (subprocess_run env cmd cwd t).
Proof. intros w. by apply models_only. Qed.

Lemma mo_emit ev : respects R (emit ev).
Proof. intros w. by apply models_only. Qed.

Lemma mo_set_fs f : respects R (set_fs f).
Proof. intros w. by apply models_only. Qed.

Ltac mo_prim :=
  first [ apply mo_extern | apply mo_subprocess_run | apply mo_emit
        | apply mo_set_fs
        | progress unfold write_file, open_wb, unlink, mkdir_p, getsize, read_file,
            glob_count, getitem, py_get, py_len, py_iter, py_str_method ].

Lemma health_respects : respects R (health env).
Proof. unfold health. respects_tac mo_prim. Qed.

Lemma status_respects : respects R (status env).
Proof. unfold status. respects_tac mo_prim. Qed.

Lemma reduce_faces_respects target mesh :
  respects R (reduce_faces env target mesh).
Proof. unfold reduce_faces, reduce_faces_attempt. respects_tac mo_prim. Qed.

Lemma generate_body_respects pipe rmbg req :
  respects R (generate_body env pipe rmbg req).
Proof.
  unfold generate_body, reconstruct, save_glb.
  repeat first [ apply reduce_faces_respects | respects_step mo_prim ].
Qed.

Lemma search_image_respects req : respects R (search_image env req).
Proof.
  unfold search_image, search_body, ddgs_search, save_png, search_result_entry.
  respects_tac mo_prim.
Qed.

Lemma merge_part_respects combined i part :
  respects R (merge_part env combined i part).
Proof. unfold merge_part, part_transform. respects_tac mo_prim. Qed.

Lemma merge_loop_respects ps : forall combined i,
  respects R (merge_loop env combined i ps).
Proof.
  induction ps as [|part rest IH]; intros combined i; simpl.
  - apply (respects_ret R).
  - apply (respects_bind R); [apply merge_part_respects | intros c; apply IH].
Qed.

Lemma merge_parts_respects req : respects R (merge_parts env req).
Proof.
  unfold merge_parts.
  repeat first [ apply merge_loop_respects | respects_step mo_prim ].
Qed.

Lemma rig_pipeline_respects req mesh_path :
  respects R (rig_pipeline env req mesh_path).
Proof. unfold rig_pipeline. respects_tac mo_prim. Qed.

Lemma rig_bot_respects req : respects R (rig_bot env req).
Proof.
  unfold rig_bot. rewrite call_unload_triposr.
  repeat first [ apply rig_pipeline_respects | progress unfold rig_except
               | respects_step mo_prim ].
Qed.

Lemma serve_generated_respects name : respects R (serve_generated env name).
Proof. unfold serve_generated. respects_tac mo_prim. Qed.

Lemma route_generated_respects name : respects R (route_generated env name).
Proof.
  unfold route_generated. destruct name as [|c name]; [apply (respects_raise R) |].
  destruct (str_contains_slash (String c name));
    [apply (respects_raise R) | apply serve_generated_respects].
Qed.
End HandlersKeepModels.

(** ** /status and the loaded flag *)

(** [status] always answers, and its [triposg_loaded] entry is
    [triposg_pipe is not None] of the world it ran in. *)
Lemma status_loaded_flag env w :
  exists resp w',
    status env w = (Ok resp, w') /\
    resp !! "triposg_loaded"
    = Some (VBool (bool_decide (is_Some (triposg_pipe w)))).
Proof.
  unfold status, bind, try_except, extern, glob_count, get_world, ret, bind.
  destruct (respond env unit (PyImport "torch") w) as [[]|e1]; simpl.
  - destruct (respond env bool CudaIsAvailable _) as [[|]|e2]; simpl.
    + destruct (respond env _ GpuStats _) as [stats|e3]; simpl;
        eexists _, _; (split; [reflexivity | done]).
    + eexists _, _; (split; [reflexivity | done]).
    + eexists _, _; (split; [reflexivity | done]).
  - eexists _, _; (split; [reflexivity | done]).
Qed.

Lemma load_triposg_models_ensures env :
  ensures loaded_or_untouched (load_triposg_models env).
Proof.
  unfold load_triposg_models.
  do 10 (apply (ensures_bind pipe_untouched);
         [ intros ?; reflexivity
         | intros ? ? ? H; exact H
         | intros w w1 [[p n]|e] w' H1 H2; unfold pipe_untouched in H1;
           simpl in *; [exact H2 | congruence]
         | intros ? ]).
  intros w. unfold bind, extern, set_triposg_pipe, get_world, ret. simpl.
  destruct (respond env _ _ _) as [pipe|e]; simpl; eauto.
Qed.

(** What a load attempt leaves in the globals: on success the pipeline it
    returns is the one now in [triposg_pipe]; on failure [triposg_pipe] is
    as before. *)
Lemma load_triposg_models_globals env w r w' :
  load_triposg_models env w = (r, w') ->
  match r with
  | Ok (p, n) => is_Some p /\ triposg_pipe w' = p /\ rmbg_net w' = n
  | Raise _ => triposg_pipe w' = triposg_pipe w
  end.
Proof.
  intros H.
  pose proof (load_triposg_models_ensures env w) as Hq.
  rewrite H in Hq. exact Hq.
Qed.

Lemma get_triposg_models_globals env w :
  exists p n w',
    get_triposg_models env w = (Ok (p, n), w') /\
    (p = None \/ (is_Some p /\ triposg_pipe w' = p)) /\
    stays_loaded w w'.
Proof.
  unfold get_triposg_models, bind, get_world. simpl.
  destruct (triposg_pipe w) as [pipe|] eqn:Hp; simpl.
  - eexists _, _, _. split; [reflexivity |]. split.
    + right. rewrite Hp. eauto.
    + intros _. rewrite Hp. eauto.
  - unfold try_except.
    destruct (load_triposg_models env w) as [[[p n]|e] w'] eqn:Hl.
    + apply load_triposg_models_globals in Hl as (Hs & Hw & _).
      eexists _, _, _. split; [reflexivity |]. split; [right; done |].
      intros _. by rewrite Hw.
    + exists None, None, w'. split; [by destruct (is_ImportError e) |].
      split; [by left |]. intros [? H]. congruence.
Qed.







(** ** What a run adds to the trace, and what it leaves on disk *)

#[local] Instance extends_with_preorder P : PreOrder (extends_with P).
Proof.
  split.
  - intros w. exists []. by rewrite app_nil_r.
  - intros w1 w2 w3 (e1 & H1 & F1) (e2 & H2 & F2). exists (e1 ++ e2). split.
    + by rewrite H2, H1, app_assoc.
    + by apply Forall_app.
Qed.

#[local] Instance same_fs_preorder : PreOrder same_fs.
Proof.
  split.
  - by intros w.
  - intros w1 w2 w3 H1 H2. unfold same_fs in *. congruence.
Qed.

Section TraceFacts.
Context (P : Event -> Prop) (env : Env).

Lemma ew_extern {A} (c : Call A) :
  (forall r, P (Called c r)) -> respects (extends_with P) (extern env c).
Proof. intros H w. eexists [_]. split; [reflexivity |]. by constructor. Qed.

Lemma ew_set_rmbg_net n : respects (extends_with P) (set_rmbg_net n).
Proof. intros w. exists []. by rewrite app_nil_r. Qed.

Lemma ew_set_triposg_pipe p : respects (extends_with P) (set_triposg_pipe p).
Proof. intros w. exists []. by rewrite app_nil_r. Qed.

Lemma sf_extern {A} (c : Call A) : respects same_fs (extern env c).
Proof. by intros w. Qed.
End TraceFacts.


(** ** Strings and token paths *)

Lemma str_length_app (s t : string) :
  String.length (s +:+ t) = (String.length s + String.length t)%nat.
Proof. induction s as [|c s IH]; simpl; [done | by rewrite IH]. Qed.

Lemma str_app_inv_tail (t : string) : forall s1 s2 : string,
  s1 +:+ t = s2 +:+ t -> s1 = s2.
Proof.
  induction s1 as [|c1 s1 IH]; intros [|c2 s2] H.
  - done.
  - apply (f_equal String.length) in H.
    rewrite (str_length_app "" t), (str_length_app (String c2 s2) t) in H.
    simpl in H. lia.
  - apply (f_equal String.length) in H.
    rewrite (str_length_app "" t), (str_length_app (String c1 s1) t) in H.
    simpl in H. lia.
  - change (String c1 (s1 +:+ t) = String c2 (s2 +:+ t)) in H.
    injection H as -> H. f_equal. by apply IH.
Qed.

(** Token paths are injective in the kind and in the eight digits. *)
Lemma token_path_inj env k1 k2 hex1 hex2 :
  token_path env k1 hex1 = token_path env k2 hex2 ->
  k1 = k2 /\ str_take 8 hex1 = str_take 8 hex2.
Proof.
  destruct k1, k2; unfold token_path; cbn [path_join String.app];
    intros H; apply (inj (String.app _)) in H; cbn in H;
    try discriminate; injection H as H.
  - split; [done |]. by apply (str_app_inv_tail ".glb").
  - split; [done |]. by apply (str_app_inv_tail ".png").
Qed.

(** ** Inversion of successful runs *)

Lemma try_except_raise_Ok_inv {A} (m : M A) (f : exn -> exn) w a w' :
  try_except m (fun e => raise (f e)) w = (Ok a, w') -> m w = (Ok a, w').
Proof.
  unfold try_except. destruct (m w) as [[a0|e] w1]; [done | discriminate].
Qed.

Lemma extern_Ok_inv env {A} (c : Call A) w a w' :
  extern env c w = (Ok a, w') -> w' = add_event (Called c (Ok a)) w.
Proof. unfold extern. by intros [= -> <-]. Qed.

Lemma write_file_Ok_inv p content w u w' :
  write_file p content w = (Ok u, w') ->
  trace w' = trace w ++ [Wrote p] /\ fs w' = <[p := File content]> (fs w).
Proof.
  unfold write_file, bind, get_world, set_fs, emit. simpl.
  destruct (fs w !! p) as [[|c]|]; simpl; intros H; simplify_eq; by simpl.
Qed.

Lemma open_wb_Ok_inv p w u w' :
  open_wb p w = (Ok u, w') ->
  w' = {| triposg_pipe := triposg_pipe w; rmbg_net := rmbg_net w;
          fs := <[p := File ""]> (fs w); trace := trace w |}.
Proof.
  unfold open_wb, bind, get_world, set_fs. simpl.
  destruct (fs w !! p) as [[|c]|]; simpl; unfold raise; intros H; by simplify_eq.
Qed.

Lemma getsize_inv p w r w' : getsize p w = (r, w') -> w' = w.
Proof.
  unfold getsize, bind, get_world. simpl.
  destruct (fs w !! p) as [[|c]|]; unfold ret, raise; intros H; by simplify_eq.
Qed.

Lemma save_glb_drew_and_wrote env mesh w part_id w' :
  save_glb env mesh w = (Ok part_id, w') ->
  exists hex, part_id = "gen_" +:+ str_take 8 hex /\
              drew_and_wrote w' hex (token_path env GeneratedMesh hex).
Proof.
  unfold save_glb. intros H.
  apply bind_Ok_inv in H as (hex & w1 & H1 & H). apply extern_Ok_inv in H1 as ->.
  apply bind_Ok_inv in H as (u0 & w1' & H0 & H). apply open_wb_Ok_inv in H0 as ->.
  apply bind_Ok_inv in H as (glb & w2 & H2 & H). apply extern_Ok_inv in H2 as ->.
  apply bind_Ok_inv in H as (u & w3 & H3 & H). apply write_file_Ok_inv in H3 as [Ht _].
  apply bind_Ok_inv in H as (sz & w4 & H4 & H). apply getsize_inv in H4 as ->.
  injection H as <- <-.
  exists hex. split; [done |].
  eexists (trace w), _, _, _. rewrite Ht. simpl. by rewrite <- !app_assoc.
Qed.

Lemma save_png_drew_and_wrote env image w img_id w' :
  save_png env image w = (Ok img_id, w') ->
  exists hex, img_id = "ref_" +:+ str_take 8 hex /\
              drew_and_wrote w' hex (token_path env ReferenceImage hex).
Proof.
  unfold save_png. intros H.
  apply bind_Ok_inv in H as (hex & w1 & H1 & H). apply extern_Ok_inv in H1 as ->.
  apply bind_Ok_inv in H as (png & w2 & H2 & H). apply extern_Ok_inv in H2 as ->.
  apply bind_Ok_inv in H as (u & w3 & H3 & H). apply write_file_Ok_inv in H3 as [Ht _].
  injection H as <- <-.
  exists hex. split; [done |].
  eexists (trace w), _, _, _. rewrite Ht. simpl. by rewrite <- !app_assoc.
Qed.

(** A [/generate] that answers went through its three phases. *)
Lemma generate_3d_Ok_inv env req w resp w' :
  generate_3d env req w = (Ok resp, w') ->
  exists pipe rmbg w0 start orig w1 mesh w2 finish part_id,
    reconstruct env pipe rmbg req w0 = (Ok (start, orig), w1) /\
    reduce_faces env (faces req) orig w1 = (Ok mesh, w2) /\
    save_glb env mesh (add_event (Called TimeNow (Ok finish)) w2)
    = (Ok part_id, w') /\
    resp !! "part_id" = Some (VStr part_id) /\
    resp !! "faces" = Some (VInt (Z.of_nat (length (mesh_faces mesh)))).
Proof.
  unfold generate_3d. intros H.
  apply bind_Ok_inv in H as ([p n] & w0 & _ & H). simpl in H.
  destruct p as [pipe|]; [| discriminate].
  apply try_except_raise_Ok_inv in H. unfold generate_body in H.
  apply bind_Ok_inv in H as ([start orig] & w1 & Hrec & H).
  apply bind_Ok_inv in H as (mesh & w2 & Hred & H).
  apply bind_Ok_inv in H as (finish & w3 & Hfin & H). apply extern_Ok_inv in Hfin as ->.
  apply bind_Ok_inv in H as (part_id & w4 & Hsave & H).
  injection H as <- <-.
  exists pipe, n, w0, start, orig, w1, mesh, w2, finish, part_id.
  repeat split; done.
Qed.

(** ** C1: /rig and the release of the resident models *)

(** C1 (the code at the failing input, in general): on an existing mesh
    file [rig_bot] calls [unload_triposr], a name server.py never binds (the
    function it defines is [unload_triposg]).  The call raises [NameError]
    and the world is left exactly as it was: resident models stay resident,
    nothing is released, and no rigging subprocess is started. *)
Theorem rig_bot_raises_NameError env req w :
  is_Some (fs w !! (PROJECT_ROOT env // lstrip_slash (glb_path req))) ->
  rig_bot env req w
  = (Raise (PyExc NameError "name 'unload_triposr' is not defined"), w).
Proof.
  intros Hex. unfold rig_bot, bind, path_exists.
  rewrite (bool_decide_eq_true_2 _ Hex). reflexivity.
Qed.

Lemma rig_bot_raises_NameError_witness :
  rig_bot env_ok rig_req0 world_loaded
  = (Raise (PyExc NameError "name 'unload_triposr' is not defined"), world_loaded)
  /\ triposg_pipe world_loaded = Some 2%nat
  /\ rmbg_net world_loaded = Some 1%nat.
Proof.
  split; [| split; reflexivity].
  apply (rig_bot_raises_NameError env_ok rig_req0 world_loaded).
  exists (File "glTF"). reflexivity.
Defined.

(** ** C2: the face count returned by /generate *)

(** The face reduction never raises; it yields the mesh it was given when
    it is skipped or its attempt fails, and the attempt's mesh otherwise. *)
Lemma reduce_faces_cases env target orig w :
  exists mesh w',
    reduce_faces env target orig w = (Ok mesh, w') /\
    ((target <= 0 \/ Z.of_nat (length (mesh_faces orig)) <= target) -> mesh = orig) /\
    ((0 < target /\ target < Z.of_nat (length (mesh_faces orig))) ->
     match (reduce_faces_attempt env target orig w).1 with
     | Ok mesh' => mesh = mesh'
     | Raise _ => mesh = orig
     end).
Proof.
  unfold reduce_faces.
  destruct (0 <? target)%Z eqn:Hpos; simpl.
  - destruct (target <? Z.of_nat (length (mesh_faces orig)))%Z eqn:Hlt; simpl.
    + unfold try_except.
      destruct (reduce_faces_attempt env target orig w) as [[mesh'|e] w1]; simpl;
        eexists _, _; (split; [reflexivity |]); (split; [lia | done]).
    + exists orig, w. split; [done |]. split; [done | lia].
  - exists orig, w. split; [done |]. split; [done | lia].
Qed.

(** The third-party call answered what the run returned. *)
Lemma extern_Ok_respond env {A} (c : Call A) w a w' :
  extern env c w = (Ok a, w') -> respond env A c w = Ok a.
Proof. unfold extern. by intros [= -> _]. Qed.

(** An attempt that completes has asked the simplifier for [target] faces
    and rebuilt the mesh from its answer. *)
Lemma reduce_faces_attempt_bound env target mesh w mesh' w' :
  simplifier_honours_target env ->
  0 < target ->
  reduce_faces_attempt env target mesh w = (Ok mesh', w') ->
  Z.of_nat (length (mesh_faces mesh')) <= target.
Proof.
  intros [Hdec Hnew] Hpos H. unfold reduce_faces_attempt in H.
  apply bind_Ok_inv in H as ([] & w1 & _ & H).
  apply bind_Ok_inv in H as ([vs fcs] & w2 & H2 & H).
  apply extern_Ok_respond in H2. apply extern_Ok_respond in H. simpl in H.
  specialize (Hdec _ _ _ _ _ Hpos H2). specialize (Hnew _ _ _ _ H). lia.
Qed.

(** C2: for a positive face budget, with a simplifier that honours the
    target it is called with, a [/generate] that answers reports a face
    count [n] such that:
    [n] is the face count of the reconstructed mesh when the reduction is
    skipped (that mesh is already within the budget) or its attempt raises;
    [n] is the face count of the simplified mesh, at most the budget, when
    the attempt completes; and [n] is never above the face count of the
    reconstructed mesh. *)
Theorem generate_face_count env req w resp w' :
  simplifier_honours_target env ->
  0 < faces req ->
  generate_3d env req w = (Ok resp, w') ->
  exists pipe rmbg w0 start orig w1 n,
    reconstruct env pipe rmbg req w0 = (Ok (start, orig), w1) /\
    resp !! "faces" = Some (VInt n) /\
    n <= Z.of_nat (length (mesh_faces orig)) /\
    (Z.of_nat (length (mesh_faces orig)) <= faces req ->
     n = Z.of_nat (length (mesh_faces orig))) /\
    (faces req < Z.of_nat (length (mesh_faces orig)) ->
     forall e, (reduce_faces_attempt env (faces req) orig w1).1 = Raise e ->
               n = Z.of_nat (length (mesh_faces orig))) /\
    (faces req < Z.of_nat (length (mesh_faces orig)) ->
     forall mesh', (reduce_faces_attempt env (faces req) orig w1).1 = Ok mesh' ->
                   n = Z.of_nat (length (mesh_faces mesh')) /\ n <= faces req).
Proof.
  intros Htool Hpos Hgen.
  apply generate_3d_Ok_inv in Hgen
    as (pipe & rmbg & w0 & start & orig & w1 & mesh & w2 & finish & part_id
        & Hrec & Hred & _ & _ & Hfaces).
  exists pipe, rmbg, w0, start, orig, w1, (Z.of_nat (length (mesh_faces mesh))).
  split; [exact Hrec |]. split; [exact Hfaces |].
  destruct (reduce_faces_cases env (faces req) orig w1)
    as (mesh0 & w2' & Hred' & Hskip & Htry).
  rewrite Hred in Hred'. injection Hred' as <- <-.
  assert (Hbound : forall mesh',
            faces req < Z.of_nat (length (mesh_faces orig)) ->
            (reduce_faces_attempt env (faces req) orig w1).1 = Ok mesh' ->
            mesh = mesh' /\ Z.of_nat (length (mesh_faces mesh')) <= faces req).
  { intros mesh' Hlt Hok. specialize (Htry (conj Hpos Hlt)).
    rewrite Hok in Htry. split; [exact Htry |].
    destruct (reduce_faces_attempt env (faces req) orig w1) as [r wa] eqn:Hatt.
    simpl in Hok. subst r. by eapply reduce_faces_attempt_bound. }
  split; [| split; [| split]].
  - destruct (Z_le_gt_dec (Z.of_nat (length (mesh_faces orig))) (faces req)) as [Hle|Hgt].
    + rewrite Hskip; [lia | by right].
    + specialize (Htry (conj Hpos (Z.gt_lt _ _ Hgt))).
      destruct ((reduce_faces_attempt env (faces req) orig w1).1) as [mesh'|e] eqn:Hatt.
      * destruct (Hbound mesh' (Z.gt_lt _ _ Hgt) eq_refl) as [_ Hb]. subst mesh. lia.
      * subst mesh. lia.
  - intros Hle. rewrite Hskip; [done | by right].
  - intros Hlt e He. specialize (Htry (conj Hpos Hlt)). rewrite He in Htry. by subst.
  - intros Hlt mesh' Hok. destruct (Hbound mesh' Hlt Hok) as [-> Hb]. done.
Qed.

Lemma generate_face_count_witness :
  exists pipe rmbg w0 start orig w1 n,
    reconstruct env_ok pipe rmbg (generate_req 2) w0 = (Ok (start, orig), w1) /\
    field (generate_3d env_ok (generate_req 2) world0).1 "faces" = Some (VInt n) /\
    n <= Z.of_nat (length (mesh_faces orig)) /\
    (Z.of_nat (length (mesh_faces orig)) <= 2 ->
     n = Z.of_nat (length (mesh_faces orig))) /\
    (2 < Z.of_nat (length (mesh_faces orig)) ->
     forall e, (reduce_faces_attempt env_ok 2 orig w1).1 = Raise e ->
               n = Z.of_nat (length (mesh_faces orig))) /\
    (2 < Z.of_nat (length (mesh_faces orig)) ->
     forall mesh', (reduce_faces_attempt env_ok 2 orig w1).1 = Ok mesh' ->
                   n = Z.of_nat (length (mesh_faces mesh')) /\ n <= 2).
Proof.
  apply (generate_face_count env_ok (generate_req 2) world0
           match (generate_3d env_ok (generate_req 2) world0).1 with
           | Ok resp => resp
           | Raise _ => ∅
           end
           (generate_3d env_ok (generate_req 2) world0).2).
  - split.
    + intros mesh target w vs fcs Hpos. simpl. intros [= _ <-].
      rewrite length_take. lia.
    + intros vs fcs w mesh. simpl. by intros [= <-].
  - simpl. lia.
  - vm_compute. reflexivity.
Defined.

(** The same request through the three cases of C2 in [env_ok], whose
    reconstruction has four faces: budget 2 is met by the simplifier,
    budget 10 skips it. *)
Example generate_faces_examples :
  field (generate_3d env_ok (generate_req 2) world0).1 "faces" = Some (VInt 2)
  /\ field (generate_3d env_ok (generate_req 10) world0).1 "faces" = Some (VInt 4).
Proof. split; vm_compute; reflexivity. Qed.

(** ** C3: /merge with a part that does not exist *)

Lemma merge_loop_app env pre : forall combined i rest w,
  merge_loop env combined i (pre ++ rest) w
  = bind (merge_loop env combined i pre)
         (fun c => merge_loop env c (i + length pre)%nat rest) w.
Proof.
  induction pre as [|part pre IH]; intros combined i rest w; simpl.
  - unfold bind, ret. by rewrite Nat.add_0_r.
  - rewrite bind_assoc. unfold bind at 1 2.
    destruct (merge_part env combined i part w) as [[c|e] w1]; [| done].
    rewrite IH. by rewrite Nat.add_succ_r.
Qed.

(** The loop over the parts reads and loads; it writes nothing. *)
Lemma merge_loop_same_fs env ps : forall combined i,
  respects same_fs (merge_loop env combined i ps).
Proof.
  induction ps as [|part rest IH]; intros combined i; simpl.
  - apply (respects_ret same_fs).
  - apply (respects_bind same_fs); [| intros c; apply IH].
    unfold merge_part, part_transform.
    respects_tac ltac:(first [ apply sf_extern
                             | progress unfold getitem, py_iter, py_str_method ]).
Qed.







(** In that request the part before the missing one is fine, and the
    answer is the 404. *)
Example merge_second_missing_is_404 :
  (merge_parts env_ok merge_req_second_missing world_loaded).1
  = Raise (HTTPException 404 "Part not found: /public/parts/missing.glb").
Proof. vm_compute. reflexivity. Qed.

(** ** C4: names of the output files *)

Lemma mapM_search_entries_world (rs : list pydict) w :
  (mapM search_result_entry rs w).2 = w.
Proof.
  symmetry. apply (respects_mapM eq). intros r.
  unfold search_result_entry, getitem.
  respects_tac idtac.
Qed.

(** A [/search-image] that answers with an [image_id] went through
    [save_png], and nothing happened after it. *)
Lemma search_image_Ok_inv env req w resp w' id :
  search_image env req w = (Ok resp, w') ->
  resp !! "image_id" = Some id ->
  exists image w1 img_id,
    save_png env image w1 = (Ok img_id, w') /\ id = VStr img_id.
Proof.
  unfold search_image, try_except.
  destruct (search_body env req w) as [[r|e] wb] eqn:Hb;
    [| destruct (is_ImportError e); discriminate].
  intros [= -> ->] Hid. unfold search_body in Hb.
  apply bind_Ok_inv in Hb as (results & w1 & _ & H).
  destruct results as [|first rest].
  - injection H as <- <-. discriminate.
  - apply bind_Ok_inv in H as (u & w2 & _ & H).
    apply bind_Ok_inv in H as (image_url & w3 & _ & H).
    apply bind_Ok_inv in H as (content & w4 & _ & H).
    apply bind_Ok_inv in H as (image0 & w5 & _ & H).
    apply bind_Ok_inv in H as (image1 & w6 & _ & H).
    apply bind_Ok_inv in H as (image & w7 & _ & H).
    apply bind_Ok_inv in H as (img_id & w8 & Hsave & H).
    apply bind_Ok_inv in H as (all_results & w9 & Hmap & H).
    injection H as <- <-.
    pose proof (mapM_search_entries_world (take 5 (first :: rest)) w8) as Hw.
    rewrite Hmap in Hw. simpl in Hw. subst w9.
    rewrite lookup_insert_eq in Hid. injection Hid as <-.
    by exists image, w7, img_id.
Qed.

Lemma merge_parts_Ok_inv env req w resp w' :
  merge_parts env req w = (Ok resp, w') ->
  exists evs, trace w' = evs ++ [Wrote (merge_output_path env req)].
Proof.
  unfold merge_parts. intros H.
  apply bind_Ok_inv in H as (combined & w1 & _ & H).
  apply bind_Ok_inv in H as (glb & w2 & _ & H).
  apply bind_Ok_inv in H as (u & w3 & Hw & H). apply write_file_Ok_inv in Hw as [Ht _].
  apply bind_Ok_inv in H as (s1 & w4 & H4 & H). apply getsize_inv in H4 as ->.
  apply bind_Ok_inv in H as (s2 & w5 & H5 & H). apply getsize_inv in H5 as ->.
  injection H as <- <-. by exists (trace w2).
Qed.

(** C4, as stated, fails: [/merge] names its output after the
    [output_name] of the request, "merged_bot" unless the caller says
    otherwise.  Two different requests, served one after the other, both
    finish by writing the same path. *)
Lemma merge_outputs_collide :
  let first := merge_parts env_ok merge_req_generated world_loaded in
  let second := merge_parts env_ok merge_req_twice first.2 in
  merge_req_generated <> merge_req_twice
  /\ is_ok first.1 = true
  /\ is_ok second.1 = true
  /\ last (trace first.2)
     = Some (Wrote "/srv/battle-bots/public/parts/generated/merged_bot.glb")
  /\ last (trace second.2)
     = Some (Wrote "/srv/battle-bots/public/parts/generated/merged_bot.glb").
Proof.
  split; [intros [=] |].
  split; [| split; [| split]]; vm_compute; reflexivity.
Qed.

(** C4 (amended): the file a [/generate] writes into the output directory
    is gen_<t>.glb and the file a [/search-image] writes there is
    ref_<t>.png, where <t> is the first eight hex digits of a uuid drawn
    during that request; two such paths coincide only for the same kind
    and the same eight digits.  The file a [/merge] writes is
    <output_name>.glb, named by the caller. *)
Theorem token_named_outputs env :
  (forall req w resp w',
     generate_3d env req w = (Ok resp, w') ->
     exists hex, resp !! "part_id" = Some (VStr ("gen_" +:+ str_take 8 hex)) /\
                 drew_and_wrote w' hex (token_path env GeneratedMesh hex))
  /\ (forall req w resp w' id,
        search_image env req w = (Ok resp, w') ->
        resp !! "image_id" = Some id ->
        exists hex, id = VStr ("ref_" +:+ str_take 8 hex) /\
                    drew_and_wrote w' hex (token_path env ReferenceImage hex))
  /\ (forall k1 k2 hex1 hex2,
        token_path env k1 hex1 = token_path env k2 hex2 ->
        k1 = k2 /\ str_take 8 hex1 = str_take 8 hex2)
  /\ (forall req w resp w',
        merge_parts env req w = (Ok resp, w') ->
        exists evs,
          trace w' = evs ++ [Wrote (OUTPUT_DIR env // (output_name req +:+ ".glb"))]).
Proof.
  split; [| split; [| split]].
  - intros req w resp w' Hgen.
    apply generate_3d_Ok_inv in Hgen
      as (pipe & rmbg & w0 & start & orig & w1 & mesh & w2 & finish & part_id
          & _ & _ & Hsave & Hid & _).
    apply save_glb_drew_and_wrote in Hsave as (hex & -> & Hdw).
    by exists hex.
  - intros req w resp w' id Hs Hid.
    destruct (search_image_Ok_inv env req w resp w' id Hs Hid)
      as (image & w1 & img_id & Hsave & ->).
    apply save_png_drew_and_wrote in Hsave as (hex & -> & Hdw).
    by exists hex.
  - apply token_path_inj.
  - intros req w resp w' Hm. by apply merge_parts_Ok_inv in Hm.
Qed.

Lemma token_named_outputs_witness :
  (exists hex,
     field (generate_3d env_ok (generate_req 2) world0).1 "part_id"
     = Some (VStr ("gen_" +:+ str_take 8 hex)) /\
     drew_and_wrote (generate_3d env_ok (generate_req 2) world0).2 hex
       (token_path env_ok GeneratedMesh hex))
  /\ (token_path env_ok GeneratedMesh "3f2a9c01d4e84b7a9b1c5d6e7f809a1b"
      = "/srv/battle-bots/public/parts/generated/gen_3f2a9c01.glb").
Proof.
  split; [| reflexivity].
  apply (proj1 (token_named_outputs env_ok) (generate_req 2) world0
           match (generate_3d env_ok (generate_req 2) world0).1 with
           | Ok resp => resp
           | Raise _ => ∅
           end).
  vm_compute. reflexivity.
Defined.

(** ** C5: the skin-JSON conversion step of /rig *)

(** C5 (the code at the failing input): both mandatory steps exit with 0
    and the conversion subprocess runs into its 30 second limit.  The
    [TimeoutExpired] it raises is not handled at the conversion step; the
    [except subprocess.TimeoutExpired] clause of the handler turns it into
    the 504 failure.  The handler as a whole does not even get that far: it
    raises [NameError] before its [try] block. *)
Theorem rig_export_timeout_is_504 :
  let run :=
    try_except
      (rig_pipeline env_slow_export rig_req0
         "/srv/battle-bots/public/parts/generated/gen_3f2a9c01.glb")
      rig_except world_loaded in
  run.1 = Raise (HTTPException 504 "Rigging timed out (120s limit)")
  /\ trace run.2
     = [ MadeDir "/srv/battle-bots/public/parts/generated/rig_rigged_bot";
         Called (SubprocessRun
                   [ "/usr/bin/python3"; "-m"; "src.main";
                     "input.mesh_path=/srv/battle-bots/public/parts/generated/gen_3f2a9c01.glb";
                     "resources.skeleton_config=configs/task/quick_inference_skel_win.yaml";
                     "output.directory=/srv/battle-bots/public/parts/generated/rig_rigged_bot" ]
                   "/srv/battle-bots/tools/UniRig" 120)
           (Ok {| returncode := 0; stdout := ""; stderr := "" |});
         Called (SubprocessRun
                   [ "/usr/bin/python3"; "-m"; "src.main";
                     "input.mesh_path=/srv/battle-bots/public/parts/generated/gen_3f2a9c01.glb";
                     "resources.skin_config=configs/task/quick_inference_skin_win.yaml";
                     "output.directory=/srv/battle-bots/public/parts/generated/rig_rigged_bot" ]
                   "/srv/battle-bots/tools/UniRig" 120)
           (Ok {| returncode := 0; stdout := ""; stderr := "" |});
         Called (SubprocessRun
                   [ "/usr/bin/python3";
                     "/srv/battle-bots/tools/UniRig/export_skin_json.py";
                     "/srv/battle-bots/public/parts/generated/rig_rigged_bot/predict_skin.npz";
                     "/srv/battle-bots/public/parts/generated/rig_rigged_bot/skin.json" ]
                   "/srv/battle-bots/tools/UniRig" 30)
           (Raise (PyExc TimeoutExpired "Command timed out after 30 seconds")) ]
  /\ (rig_bot env_slow_export rig_req0 world_loaded).1
     = Raise (PyExc NameError "name 'unload_triposr' is not defined").
Proof. split; [| split]; vm_compute; reflexivity. Qed.

(** The part of C5 that the [try] block does implement: a conversion that
    exits with a nonzero status and leaves no skin.json is tolerated. *)
Example rig_export_nonzero_is_tolerated :
  let run :=
    try_except
      (rig_pipeline env_failed_export rig_req0
         "/srv/battle-bots/public/parts/generated/gen_3f2a9c01.glb")
      rig_except world_loaded in
  is_ok run.1 = true
  /\ field run.1 "skin_json" = Some VNone
  /\ field run.1 "message"
     = Some (VStr "Rigging completed but skin.json not generated").
Proof. split; [| split]; vm_compute; reflexivity. Qed.

(** ** C6: a failed model load *)



(** ** C7: /status before and after /generate *)




(** ** C8: exceptions at the handler boundary *)

(** The handlers that wrap their body in [try]/[except Exception] let
    nothing but an [HTTPException] out. *)
Lemma generate_3d_raises_http env req w e w' :
  generate_3d env req w = (Raise e, w') -> is_HTTPException e = true.
Proof.
  unfold generate_3d, bind.
  destruct (get_triposg_models_globals env w) as (p & n & w1 & -> & _ & _).
  simpl. destruct p as [pipe|]; simpl.
  - unfold try_except.
    destruct (generate_body env pipe n req w1) as [[resp|e0] w2];
      [discriminate | by intros [= <- _]].
  - by intros [= <- _].
Qed.

Lemma search_image_raises_http env req w e w' :
  search_image env req w = (Raise e, w') -> is_HTTPException e = true.
Proof.
  unfold search_image, try_except.
  destruct (search_body env req w) as [[resp|e0] w1]; [discriminate |].
  destruct (is_ImportError e0); by intros [= <- _].
Qed.

Lemma rig_try_raises_http env req path w e w' :
  try_except (rig_pipeline env req path) rig_except w = (Raise e, w') ->
  is_HTTPException e = true.
Proof.
  unfold try_except.
  destruct (rig_pipeline env req path w) as [[resp|e0] w1]; [discriminate |].
  unfold rig_except. destruct (is_TimeoutExpired e0); [by intros [= <- _] |].
  destruct (is_HTTPException e0) eqn:Hh; [| by intros [= <- _]].
  unfold raise. intros [= <- _]. exact Hh.
Qed.

(** C8 (the code at the failing input): [merge_parts] has no [try] around
    its body, so the exception [trimesh.load] raises on a file that is not a
    mesh leaves the handler as it is, not as an [HTTPException]. *)
Theorem merge_parts_lets_load_error_escape :
  (merge_parts env_bad_mesh merge_req_generated world_loaded).1
  = Raise (PyExc (OtherError "ValueError") "File type not supported").
Proof. vm_compute. reflexivity. Qed.

(** ** C9: /search-image without results *)

(** C9: when the search library is installed and the search yields the
    empty list, [/search-image] answers exactly
    [{"images": [], "message": "No images found"}]; the run ends in the
    world the search left, with the file system untouched and no write
    among its events. *)
Theorem search_image_no_results env req w w1 :
  ddgs_search env (query req) w = (Ok [], w1) ->
  search_image env req w
  = (Ok ({[ "images" := VList []; "message" := VStr "No images found" ]} : pydict),
     w1)
  /\ fs w1 = fs w
  /\ exists evs, trace w1 = trace w ++ evs /\ Forall (fun ev => is_write ev = false) evs.
Proof.
  intros Hs. split; [| split].
  - unfold search_image, search_body, try_except, bind. by rewrite Hs.
  - assert (H : same_fs w (ddgs_search env (query req) w).2).
    { unfold ddgs_search.
      apply (respects_bind same_fs); [| intros ?]; apply sf_extern. }
    by rewrite Hs in H.
  - assert (H : extends_with (fun ev => is_write ev = false) w
                  (ddgs_search env (query req) w).2).
    { unfold ddgs_search.
      apply (respects_bind (extends_with _)); [| intros ?];
        apply ew_extern; intros ?; reflexivity. }
    by rewrite Hs in H.
Qed.

Lemma search_image_no_results_witness :
  search_image env_ok {| query := "robot arm"; remove_bg := true |} world0
  = (Ok ({[ "images" := VList []; "message" := VStr "No images found" ]} : pydict),
     (ddgs_search env_ok "robot arm" world0).2)
  /\ fs (ddgs_search env_ok "robot arm" world0).2 = fs world0
  /\ exists evs, trace (ddgs_search env_ok "robot arm" world0).2 = trace world0 ++ evs
                 /\ Forall (fun ev => is_write ev = false) evs.
Proof.
  apply (search_image_no_results env_ok {| query := "robot arm"; remove_bg := true |}
           world0).
  reflexivity.
Defined.

(** ** C10: /merge parts without position or rotation *)

(** A part whose file is there is loaded, its transform composed from
    what [part.get] gives for "position" and "rotation", and added. *)
Lemma merge_part_found env combined i part p pos rs w :
  part !! "path" = Some (VStr p) ->
  is_Some (fs w !! (PROJECT_ROOT env // lstrip_slash p)) ->
  dict_get part "position" zero3 = pos ->
  dict_get part "rotation" zero3 = VList rs ->
  merge_part env combined i part w
  = merge_part_with env combined i (PROJECT_ROOT env // lstrip_slash p) pos rs w.
Proof.
  intros Hpath Hfound Hpos Hrot.
  unfold merge_part, merge_part_with, part_transform.
  rewrite Hpos, Hrot.
  unfold bind, getitem, py_str_method, path_exists, py_iter, ret.
  rewrite Hpath. cbv beta iota.
  rewrite bool_decide_eq_true_2 by exact Hfound.
  change (negb true) with false. cbv beta iota.
  destruct (extern env (MeshLoad _) w) as [[mesh|e] wa]; [| done].
  destruct (mapM _ rs wa) as [[angles|e] wb]; [| done].
  by destruct (extern env (ComposeMatrix pos angles) wb) as [[t|e] wc].
Qed.

(** C10: in the loop of a [/merge] request, a part that is reached (the
    parts before it went through) and whose file is there is not turned
    away for giving no "position" or no "rotation".  It is loaded, and the
    one [compose_matrix] call made for it has the translation [[0, 0, 0]]
    when "position" is absent and, when "rotation" is absent, the three
    angles [np.radians] answers for 0, 0 and 0; the part is added to the
    scene with the transform that call returns, and the loop goes on with
    the next part. *)
Theorem merge_missing_fields_are_zero env req w pre part rest p combined w1 :
  parts req = pre ++ part :: rest ->
  merge_loop env [] 0 pre w = (Ok combined, w1) ->
  part !! "path" = Some (VStr p) ->
  is_Some (fs w !! (PROJECT_ROOT env // lstrip_slash p)) ->
  let zeros := [VInt 0; VInt 0; VInt 0] in
  let continue_with pos rs :=
    bind (merge_part_with env combined (length pre)
            (PROJECT_ROOT env // lstrip_slash p) pos rs)
         (fun c => merge_loop env c (S (length pre)) rest) w1 in
  (part !! "position" = None -> part !! "rotation" = None ->
   merge_loop env [] 0 (parts req) w = continue_with (VList zeros) zeros)
  /\ (part !! "position" = None ->
      forall rs, part !! "rotation" = Some (VList rs) ->
      merge_loop env [] 0 (parts req) w = continue_with (VList zeros) rs)
  /\ (part !! "rotation" = None ->
      forall pos, part !! "position" = Some pos ->
      merge_loop env [] 0 (parts req) w = continue_with pos zeros).
Proof.
  intros Hparts Hpre Hpath Hfound zeros continue_with.
  assert (Hfound1 : is_Some (fs w1 !! (PROJECT_ROOT env // lstrip_slash p))).
  { pose proof (merge_loop_same_fs env pre [] 0%nat w) as Hfs.
    rewrite Hpre in Hfs. simpl in Hfs. unfold same_fs in Hfs. by rewrite Hfs. }
  assert (Hgo : forall pos rs,
            dict_get part "position" zero3 = pos ->
            dict_get part "rotation" zero3 = VList rs ->
            merge_loop env [] 0 (parts req) w = continue_with pos rs).
  { intros pos rs Hpos Hrot. subst continue_with. cbv beta.
    rewrite Hparts, merge_loop_app. unfold bind at 1. rewrite Hpre.
    change (merge_loop env combined (0 + length pre) (part :: rest) w1)
      with (bind (merge_part env combined (length pre) part)
              (fun c => merge_loop env c (S (length pre)) rest) w1).
    unfold bind.
    by rewrite (merge_part_found env combined _ part p pos rs w1). }
  split; [| split].
  - intros Hp Hr. apply Hgo; unfold dict_get; [by rewrite Hp | by rewrite Hr].
  - intros Hp rs Hr. apply Hgo; unfold dict_get; [by rewrite Hp | by rewrite Hr].
  - intros Hr pos Hp. apply Hgo; unfold dict_get; [by rewrite Hp | by rewrite Hr].
Qed.

Lemma merge_missing_fields_are_zero_witness :
  let part_path := "/srv/battle-bots/public/parts/generated/gen_3f2a9c01.glb" in
  let part := part_at "/public/parts/generated/gen_3f2a9c01.glb" in
  let zeros := [VInt 0; VInt 0; VInt 0] in
  let continue_with pos rs :=
    bind (merge_part_with env_ok [] 0 part_path pos rs)
         (fun c => merge_loop env_ok c 1 []) world_loaded in
  (part !! "position" = None -> part !! "rotation" = None ->
   merge_loop env_ok [] 0 (parts merge_req_generated) world_loaded
   = continue_with (VList zeros) zeros)
  /\ (part !! "position" = None ->
      forall rs, part !! "rotation" = Some (VList rs) ->
      merge_loop env_ok [] 0 (parts merge_req_generated) world_loaded
      = continue_with (VList zeros) rs)
  /\ (part !! "rotation" = None ->
      forall pos, part !! "position" = Some pos ->
      merge_loop env_ok [] 0 (parts merge_req_generated) world_loaded
      = continue_with pos zeros).
Proof.
  apply (merge_missing_fields_are_zero env_ok merge_req_generated world_loaded
           [] (part_at "/public/parts/generated/gen_3f2a9c01.glb") []
           "/public/parts/generated/gen_3f2a9c01.glb" [] world_loaded).
  - reflexivity.
  - reflexivity.
  - reflexivity.
  - vm_compute. eauto.
Defined.

(** A part that gives only its path is merged, with a transform composed
    from a zero translation and the radians of three zero angles. *)
Example merge_part_without_fields :
  let run := merge_parts env_ok merge_req_generated world_loaded in
  field run.1 "parts_count" = Some (VInt 1)
  /\ trace run.2
     = [ Called (MeshLoad "/srv/battle-bots/public/parts/generated/gen_3f2a9c01.glb")
           (Ok (LoadedMesh tetra));
         Called (NpRadians (VInt 0)) (Ok 0.0%float);
         Called (NpRadians (VInt 0)) (Ok 0.0%float);
         Called (NpRadians (VInt 0)) (Ok 0.0%float);
         Called (ComposeMatrix zero3 [0.0; 0.0; 0.0]%float) (Ok identity_matrix);
         Called (SceneExport
                   [ {| node_name := "part_0"; node_geom := tetra;
                        node_transform := identity_matrix |} ]
                   "/srv/battle-bots/public/parts/generated/merged_bot.glb")
           (Ok "glTF");
         Wrote "/srv/battle-bots/public/parts/generated/merged_bot.glb" ].
Proof. split; vm_compute; reflexivity. Qed.

(** * Further properties of the server *)

(** ** More on inverting runs *)

Lemma bind_Raise_inv {A B} (m : M A) (f : A -> M B) w e w' :
  bind m f w = (Raise e, w') ->
  m w = (Raise e, w') \/ exists a w1, m w = (Ok a, w1) /\ f a w1 = (Raise e, w').
Proof.
  unfold bind. destruct (m w) as [[a|e0] w1]; intros H; [right; eauto | left; congruence].
Qed.


Lemma unlink_Ok_inv p w u w' :
  unlink p w = (Ok u, w') -> fs w' = delete p (fs w).
Proof.
  unfold unlink, bind, get_world, set_fs, emit. simpl.
  destruct (fs w !! p) as [[|c]|]; simpl; intros H; simplify_eq; by simpl.
Qed.

Lemma extern_fs env {A} (c : Call A) w r w' :
  extern env c w = (r, w') -> fs w' = fs w.
Proof. unfold extern. intros H. by simplify_eq. Qed.

Lemma getsize_Ok_inv p w sz w' :
  getsize p w = (Ok sz, w') ->
  w' = w /\ (forall c, fs w !! p = Some (File c) -> sz = Z.of_nat (String.length c)).
Proof.
  unfold getsize, bind, get_world. simpl.
  destruct (fs w !! p) as [[|c]|]; unfold ret, raise; intros H; simplify_eq;
    split; try done; intros c' Hc; by simplify_eq.
Qed.

(** ** X1: the loader caches *)

(** X1: once [get_triposg_models] has returned a pipeline, calling it
    again returns the same pair and does nothing at all: no import, no
    download, no event, the world as it was. *)
Theorem get_triposg_models_cached env w p n w1 :
  get_triposg_models env w = (Ok (Some p, n), w1) ->
  get_triposg_models env w1 = (Ok (Some p, n), w1).
Proof.
  intros H.
  assert (Hg : triposg_pipe w1 = Some p /\ rmbg_net w1 = n).
  { revert H. unfold get_triposg_models, bind, get_world. simpl.
    destruct (triposg_pipe w) as [pipe|] eqn:Hp; simpl.
    - unfold ret. intros H. simplify_eq. by rewrite Hp.
    - unfold try_except.
      destruct (load_triposg_models env w) as [[[p' n']|e] w'] eqn:Hl.
      + intros H. simplify_eq.
        apply load_triposg_models_globals in Hl as (_ & Hw & Hn). done.
      + destruct (is_ImportError e); unfold ret; intros H; simplify_eq. }
  destruct Hg as [Hp Hn].
  unfold get_triposg_models, bind, get_world. simpl. rewrite Hp. simpl.
  unfold ret. by rewrite Hn.
Qed.

Lemma get_triposg_models_cached_witness :
  get_triposg_models env_ok (get_triposg_models env_ok world0).2
  = (Ok (Some 2%nat, Some 1%nat), (get_triposg_models env_ok world0).2).
Proof.
  apply (get_triposg_models_cached env_ok world0).
  vm_compute. reflexivity.
Defined.

(** ** X2: releasing the models *)

(** X2: when [unload_triposg] (also run at shutdown by [lifespan]) returns,
    neither model is resident any more and the file system is untouched; a
    second release is then a no-op that leaves the world as it is, and
    [/status] reports the models as not loaded. *)
Theorem unload_triposg_releases env w u w1 :
  unload_triposg env w = (Ok u, w1) ->
  triposg_pipe w1 = None /\ rmbg_net w1 = None /\ fs w1 = fs w /\
  lifespan_shutdown env w1 = (Ok tt, w1) /\
  field (status env w1).1 "triposg_loaded" = Some (VBool false).
Proof.
  intros H.
  assert (Hg : triposg_pipe w1 = None /\ rmbg_net w1 = None /\ fs w1 = fs w).
  { revert H. unfold unload_triposg, bind, get_world. simpl.
    destruct (bool_decide (is_Some (triposg_pipe w)) ||
              bool_decide (is_Some (rmbg_net w))) eqn:Hc; simpl.
    - unfold extern.
      destruct (respond env unit (PyImport "torch") w) as [[]|e]; simpl;
        [| discriminate].
      destruct (respond env unit EmptyCache _) as [[]|e]; simpl;
        intros H; by simplify_eq.
    - unfold ret. intros H. simplify_eq.
      apply orb_false_elim in Hc as [Hp Hn].
      apply bool_decide_eq_false in Hp. apply bool_decide_eq_false in Hn.
      rewrite <- eq_None_not_Some in Hp. rewrite <- eq_None_not_Some in Hn. done. }
  destruct Hg as (Hp & Hn & Hfs).
  split; [done |]. split; [done |]. split; [done |]. split.
  - unfold lifespan_shutdown, unload_triposg, bind, get_world. simpl.
    by rewrite Hp, Hn.
  - destruct (status_loaded_flag env w1) as (resp & w' & Hs & Hflag).
    rewrite Hs. simpl. rewrite Hflag, Hp. reflexivity.
Qed.

Lemma unload_triposg_releases_witness :
  let w1 := (unload_triposg env_ok world_loaded).2 in
  triposg_pipe w1 = None /\ rmbg_net w1 = None /\ fs w1 = fs world_loaded /\
  lifespan_shutdown env_ok w1 = (Ok tt, w1) /\
  field (status env_ok w1).1 "triposg_loaded" = Some (VBool false).
Proof.
  apply (unload_triposg_releases env_ok world_loaded tt).
  vm_compute. reflexivity.
Defined.

(** ** X3: the two models are resident together *)

Lemma load_triposg_models_both env :
  ensures loaded_both_or_untouched (load_triposg_models env).
Proof.
  unfold load_triposg_models.
  do 8 (apply (ensures_bind pipe_untouched);
        [ intros ?; reflexivity
        | intros ? ? ? H; exact H
        | intros w w1 [[p n]|e] w' H1 H2; unfold pipe_untouched in H1;
          simpl in *; [exact H2 | congruence]
        | intros ? ]).
  intros w. unfold bind, extern, set_rmbg_net, set_triposg_pipe, get_world, ret.
  simpl.
  destruct (respond env unit (RmbgEval _) _) as [[]|e]; simpl; [| done].
  destruct (respond env Handle _ _) as [pipe|e]; simpl; eauto.
Qed.

#[local] Instance keeps_pair_preorder : PreOrder keeps_pair.
Proof.
  split.
  - intros w H. exact H.
  - intros w1 w2 w3 H1 H2 H. auto.
Qed.

#[local] Instance keeps_pair_only : ModelsOnly keeps_pair.
Proof. intros w w' H1 H2 H. unfold pair_resident. by rewrite H1, H2. Qed.

Lemma get_triposg_models_pair env w :
  pair_resident w ->
  exists p n w',
    get_triposg_models env w = (Ok (p, n), w') /\
    pair_resident w' /\ (is_Some p -> is_Some n).
Proof.
  intros Hinv. unfold get_triposg_models, bind, get_world. simpl.
  destruct (triposg_pipe w) as [pipe|] eqn:Hp; simpl.
  - eexists _, _, _. split; [reflexivity |]. split; [done |].
    intros _. apply Hinv. rewrite Hp. eauto.
  - unfold try_except.
    pose proof (load_triposg_models_both env w) as Hl.
    destruct (load_triposg_models env w) as [[[p n]|e] w'] eqn:Hld; simpl in Hl.
    + destruct Hl as (Hsp & Hsn & Hw & Hn).
      eexists _, _, _. split; [reflexivity |]. split; [| done].
      intros _. by rewrite Hn.
    + exists None, None, w'. split; [by destruct (is_ImportError e) |].
      split; [| by intros [? ?]].
      intros [x Hx]. congruence.
Qed.

Lemma serve_keeps_pair env r w : keeps_pair w (serve env r w).
Proof.
  destruct r; simpl.
  - apply health_respects; apply _.
  - apply status_respects; apply _.
  - intros Hinv. unfold generate_3d, bind.
    destruct (get_triposg_models_pair env w Hinv) as (p & n & w1 & -> & Hinv1 & _).
    simpl. destruct p as [pipe|]; simpl; [| exact Hinv1].
    revert Hinv1.
    apply (respects_try_except keeps_pair);
      [apply generate_body_respects; apply _
      | intros e; apply (respects_raise keeps_pair)].
  - apply search_image_respects; apply _.
  - apply merge_parts_respects; apply _.
  - apply rig_bot_respects; apply _.
  - apply route_generated_respects; apply _.
Qed.

Lemma serve_all_keeps_pair env rs : forall w,
  keeps_pair w (serve_all env rs w).
Proof.
  induction rs as [|r rs IH]; intros w; simpl.
  - reflexivity.
  - etrans; [apply (serve_keeps_pair env r w) | apply IH].
Qed.

(** X3: in a process started with nothing loaded, after any sequence of
    requests, a loaded pipeline comes with a loaded RMBG network; so the
    loader never hands [/generate] a pipeline without the background-removal
    network that [prepare_image] needs. *)
Theorem pipeline_never_without_rmbg env rs w0 p n w1 :
  started w0 ->
  get_triposg_models env (serve_all env rs w0) = (Ok (Some p, n), w1) ->
  pair_resident (serve_all env rs w0) /\ is_Some n.
Proof.
  intros [Hp Hn] Hget.
  assert (Hinv : pair_resident (serve_all env rs w0)).
  { apply serve_all_keeps_pair. intros [x Hx]. congruence. }
  split; [exact Hinv |].
  destruct (get_triposg_models_pair env _ Hinv) as (p' & n' & w' & Hg & _ & Himp).
  rewrite Hget in Hg. simplify_eq. apply Himp. eauto.
Qed.

Lemma pipeline_never_without_rmbg_witness :
  pair_resident (serve_all env_ok [PostGenerate (generate_req 2); GetStatus] world0)
  /\ is_Some (Some 1%nat).
Proof.
  apply (pipeline_never_without_rmbg env_ok
           [PostGenerate (generate_req 2); GetStatus] world0 2%nat (Some 1%nat)
           (get_triposg_models env_ok
              (serve_all env_ok [PostGenerate (generate_req 2); GetStatus] world0)).2).
  - split; reflexivity.
  - vm_compute. reflexivity.
Defined.

(** ** X4: /status is read-only and always answers *)

(** X4: [/status] answers whatever the GPU probe does (a missing torch, a
    failing CUDA query); it changes neither the two model globals nor the
    file system, reports the output directory and a count of generated
    parts that is not negative. *)
Theorem status_is_read_only env w :
  exists resp w' n,
    status env w = (Ok resp, w') /\
    fs w' = fs w /\ triposg_pipe w' = triposg_pipe w /\ rmbg_net w' = rmbg_net w /\
    resp !! "output_dir" = Some (VStr (OUTPUT_DIR env)) /\
    resp !! "generated_parts" = Some (VInt n) /\ 0 <= n.
Proof.
  unfold status, bind, try_except, extern, glob_count, get_world, ret, bind.
  destruct (respond env unit (PyImport "torch") w) as [[]|e1]; simpl.
  - destruct (respond env bool CudaIsAvailable _) as [[|]|e2]; simpl.
    + destruct (respond env _ GpuStats _) as [stats|e3]; simpl;
        eexists _, _, _; repeat split; try reflexivity; lia.
    + eexists _, _, _; repeat split; try reflexivity; lia.
    + eexists _, _, _; repeat split; try reflexivity; lia.
  - eexists _, _, _; repeat split; try reflexivity; lia.
Qed.

(** ** X5: /rig never succeeds *)


(** ** X6, X7: hard failures of the mandatory rigging steps *)

Lemma str_take_length n : forall s, (String.length (str_take n s) <= n)%nat.
Proof.
  unfold str_take. induction n as [|n IH]; intros [|c s]; simpl; try lia.
  specialize (IH s). lia.
Qed.

(** The start of the [try] block: the work directory is made unless a
    file is in its place. *)
Lemma mkdir_p_Ok p w :
  (forall c, fs w !! p <> Some (File c)) ->
  mkdir_p p w
  = (Ok tt, {| triposg_pipe := triposg_pipe w; rmbg_net := rmbg_net w;
               fs := <[p := Dir]> (fs w); trace := trace w ++ [MadeDir p] |}).
Proof.
  intros H. unfold mkdir_p, bind, get_world, set_fs, emit. simpl.
  destruct (fs w !! p) as [[|c]|] eqn:Hl; simpl; try reflexivity.
  by destruct (H c).
Qed.

(** X6: in the [try] block of [rig_bot], a skeleton prediction (the
    command whose fifth argument is [skeleton_flag]) that runs into its 120
    second limit is answered 504, and one that exits with a nonzero status
    is answered 500 with at most the first 500 characters of its stderr.
    Either way skin prediction is not started: after the work directory,
    the skeleton subprocess is the only effect. *)
Theorem rig_skeleton_hard_failure env req mesh_path w r :
  (forall c, fs w !! rig_work_dir env req <> Some (File c)) ->
  (forall cmd w', cmd !! 4%nat = Some skeleton_flag ->
     respond env _ (SubprocessRun cmd (UNIRIG_DIR env) 120) w' = r) ->
  failed_hard r ->
  exists cmd w',
    try_except (rig_pipeline env req mesh_path) rig_except w
    = (Raise (hard_failure "Skeleton" r), w') /\
    trace w' = trace w ++ [ MadeDir (rig_work_dir env req);
                            Called (SubprocessRun cmd (UNIRIG_DIR env) 120) r ] /\
    match r with
    | Ok cp => (String.length (str_take 500 (stderr cp)) <= 500)%nat
    | Raise _ => True
    end.
Proof.
  intros Hdir Hskel Hfail.
  unfold try_except, rig_pipeline. unfold bind at 1.
  rewrite (mkdir_p_Ok _ _ Hdir).
  unfold bind at 1, path_exists at 1. cbn beta iota.
  match goal with
  | |- context [subprocess_run env ?cmd ?cwd 120] =>
      exists cmd; unfold bind at 1, subprocess_run at 1;
      rewrite (Hskel cmd _ eq_refl)
  end.
  destruct r as [cp|e]; simpl in Hfail.
  - cbn beta iota. apply Z.eqb_neq in Hfail. rewrite Hfail. simpl.
    eexists. split; [reflexivity |]. split; [| apply str_take_length].
    simpl. by rewrite <- app_assoc.
  - unfold rig_except. rewrite Hfail. simpl.
    eexists. split; [reflexivity |]. split; [| done].
    simpl. by rewrite <- app_assoc.
Qed.

Lemma rig_skeleton_hard_failure_witness :
  exists cmd w',
    try_except
      (rig_pipeline env_failed_skeleton rig_req0
         "/srv/battle-bots/public/parts/generated/gen_3f2a9c01.glb")
      rig_except world_loaded
    = (Raise (HTTPException 500 "Skeleton prediction failed: CUDA out of memory"), w') /\
    trace w'
    = trace world_loaded
      ++ [ MadeDir (rig_work_dir env_failed_skeleton rig_req0);
           Called (SubprocessRun cmd (UNIRIG_DIR env_failed_skeleton) 120)
             (Ok {| returncode := 2; stdout := ""; stderr := "CUDA out of memory" |}) ] /\
    (String.length (str_take 500 "CUDA out of memory") <= 500)%nat.
Proof.
  apply (rig_skeleton_hard_failure env_failed_skeleton rig_req0
           "/srv/battle-bots/public/parts/generated/gen_3f2a9c01.glb" world_loaded
           (Ok {| returncode := 2; stdout := ""; stderr := "CUDA out of memory" |})).
  - intros c. vm_compute. discriminate.
  - intros cmd w' _. reflexivity.
  - simpl. lia.
Defined.

(** X7: when skeleton prediction exits with 0, a skin prediction that runs
    into its 120 second limit is answered 504 and one that exits with a
    nonzero status is answered 500 with at most the first 500 characters
    of its stderr; the conversion to JSON is not started.  The two steps
    are told apart by their configuration argument, the fifth of the
    command. *)
Theorem rig_skin_hard_failure env req mesh_path w cp0 r :
  (forall c, fs w !! rig_work_dir env req <> Some (File c)) ->
  (forall cmd w', cmd !! 4%nat = Some skeleton_flag ->
     respond env _ (SubprocessRun cmd (UNIRIG_DIR env) 120) w' = Ok cp0) ->
  returncode cp0 = 0 ->
  (forall cmd w', cmd !! 4%nat = Some skin_flag ->
     respond env _ (SubprocessRun cmd (UNIRIG_DIR env) 120) w' = r) ->
  failed_hard r ->
  exists cmd1 cmd2 w',
    try_except (rig_pipeline env req mesh_path) rig_except w
    = (Raise (hard_failure "Skin" r), w') /\
    trace w' = trace w ++ [ MadeDir (rig_work_dir env req);
                            Called (SubprocessRun cmd1 (UNIRIG_DIR env) 120) (Ok cp0);
                            Called (SubprocessRun cmd2 (UNIRIG_DIR env) 120) r ].
Proof.
  intros Hdir Hskel Hzero Hskin Hfail.
  unfold try_except, rig_pipeline. unfold bind at 1.
  rewrite (mkdir_p_Ok _ _ Hdir).
  unfold bind at 1, path_exists at 1. cbn beta iota.
  match goal with
  | |- context [subprocess_run env ?cmd ?cwd 120] =>
      exists cmd; unfold bind at 1, subprocess_run at 1;
      rewrite (Hskel cmd _ eq_refl)
  end.
  cbn beta iota. rewrite Hzero. cbn [Z.eqb negb].
  match goal with
  | |- context [subprocess_run env ?cmd ?cwd 120] =>
      exists cmd; unfold bind at 1, subprocess_run at 1;
      rewrite (Hskin cmd _ eq_refl)
  end.
  destruct r as [cp|e]; simpl in Hfail.
  - cbn beta iota. apply Z.eqb_neq in Hfail. rewrite Hfail. simpl.
    eexists. split; [reflexivity |]. simpl. by rewrite <- !app_assoc.
  - unfold rig_except. rewrite Hfail. simpl.
    eexists. split; [reflexivity |]. simpl. by rewrite <- !app_assoc.
Qed.

Lemma rig_skin_hard_failure_witness :
  exists cmd1 cmd2 w',
    try_except
      (rig_pipeline env_failed_skin rig_req0
         "/srv/battle-bots/public/parts/generated/gen_3f2a9c01.glb")
      rig_except world_loaded
    = (Raise (HTTPException 500 "Skin prediction failed: no skeleton"), w') /\
    trace w'
    = trace world_loaded
      ++ [ MadeDir (rig_work_dir env_failed_skin rig_req0);
           Called (SubprocessRun cmd1 (UNIRIG_DIR env_failed_skin) 120)
             (Ok {| returncode := 0; stdout := ""; stderr := "" |});
           Called (SubprocessRun cmd2 (UNIRIG_DIR env_failed_skin) 120)
             (Ok {| returncode := 1; stdout := ""; stderr := "no skeleton" |}) ].
Proof.
  apply (rig_skin_hard_failure env_failed_skin rig_req0
           "/srv/battle-bots/public/parts/generated/gen_3f2a9c01.glb" world_loaded
           {| returncode := 0; stdout := ""; stderr := "" |}
           (Ok {| returncode := 1; stdout := ""; stderr := "no skeleton" |})).
  - intros c. vm_compute. discriminate.
  - intros cmd w' Hin. simpl. rewrite Hin. reflexivity.
  - reflexivity.
  - intros cmd w' Hin. simpl. rewrite Hin. reflexivity.
  - simpl. lia.
Defined.

(** ** What a successful /generate does, step by step *)

Lemma write_file_Ok_world p content w u w' :
  write_file p content w = (Ok u, w') ->
  w' = {| triposg_pipe := triposg_pipe w; rmbg_net := rmbg_net w;
          fs := <[p := File content]> (fs w); trace := trace w ++ [Wrote p] |}.
Proof.
  unfold write_file, bind, get_world, set_fs, emit. simpl.
  destruct (fs w !! p) as [[|c]|]; simpl; intros H; by simplify_eq.
Qed.







Lemma save_glb_Ok_inv env mesh w part_id w' :
  save_glb env mesh w = (Ok part_id, w') ->
  exists hex glb,
    part_id = "gen_" +:+ str_take 8 hex /\
    trace w' = trace w ++ [ Called Uuid4Hex (Ok hex);
                            Called (MeshExport mesh (token_path env GeneratedMesh hex))
                              (Ok glb);
                            Wrote (token_path env GeneratedMesh hex) ] /\
    fs w' = <[token_path env GeneratedMesh hex := File glb]> (fs w).
Proof.
  unfold save_glb. intros H.
  apply bind_Ok_inv in H as (hex & w1 & H1 & H). apply extern_Ok_inv in H1 as ->.
  apply bind_Ok_inv in H as ([] & w1' & H0 & H). apply open_wb_Ok_inv in H0 as ->.
  apply bind_Ok_inv in H as (glb & w2 & H2 & H). apply extern_Ok_inv in H2 as ->.
  apply bind_Ok_inv in H as ([] & w3 & H3 & H). apply write_file_Ok_world in H3 as ->.
  apply bind_Ok_inv in H as (sz & w4 & H4 & H). apply getsize_inv in H4 as ->.
  injection H as <- <-.
  exists hex, glb. split; [done |]. simpl. split.
  - by rewrite <- !app_assoc.
  - apply insert_insert_eq.
Qed.

(** A [/generate] that answers: the loader, the three phases, the answer. *)
Lemma generate_3d_Ok_full env req w resp w' :
  generate_3d env req w = (Ok resp, w') ->
  exists pipe rmbg w0 start orig w1 mesh w2 finish part_id,
    get_triposg_models env w = (Ok (Some pipe, rmbg), w0) /\
    reconstruct env pipe rmbg req w0 = (Ok (start, orig), w1) /\
    reduce_faces env (faces req) orig w1 = (Ok mesh, w2) /\
    save_glb env mesh (add_event (Called TimeNow (Ok finish)) w2)
    = (Ok part_id, w') /\
    resp = {[ "part_id" := VStr part_id;
              "glb_path" := VStr ("/parts/generated/" +:+ part_id +:+ ".glb");
              "vertices" := VInt (Z.of_nat (length (mesh_vertices mesh)));
              "faces" := VInt (Z.of_nat (length (mesh_faces mesh)));
              "elapsed_s" := VFloat (round2 env (PrimFloat.sub finish start)) ]}.
Proof.
  unfold generate_3d. intros H.
  apply bind_Ok_inv in H as ([p n] & w0 & Hget & H). simpl in H.
  destruct p as [pipe|]; [| discriminate].
  apply try_except_raise_Ok_inv in H. unfold generate_body in H.
  apply bind_Ok_inv in H as ([start orig] & w1 & Hrec & H).
  apply bind_Ok_inv in H as (mesh & w2 & Hred & H).
  apply bind_Ok_inv in H as (finish & w3 & Hfin & H). apply extern_Ok_inv in Hfin as ->.
  apply bind_Ok_inv in H as (part_id & w4 & Hsave & H).
  injection H as <- <-.
  by exists pipe, n, w0, start, orig, w1, mesh, w2, finish, part_id.
Qed.


Lemma str_app_assoc (a b c : string) : (a +:+ b) +:+ c = a +:+ (b +:+ c).
Proof.
  induction a as [|x a IH]; [done |].
  change (String x ((a +:+ b) +:+ c) = String x (a +:+ (b +:+ c))). by rewrite IH.
Qed.

(** ** X8: what a successful /generate leaves on disk *)



(** ** X9: finding a generated part again *)

Lemma path_join_relative (p : string) (c : ascii) (s : string) :
  c <> "/"%char -> p // String c s = p +:+ "/" +:+ String c s.
Proof.
  intros Hc. unfold path_join.
  destruct c as [[] [] [] [] [] [] [] []]; try reflexivity. by destruct Hc.
Qed.

(** A name in the output directory, reached from the project root. *)
Lemma resolve_under_public env (c : ascii) (s : string) :
  c <> "/"%char ->
  PROJECT_ROOT env // lstrip_slash ("/public" +:+ "/parts/generated/" +:+ String c s)
  = OUTPUT_DIR env // String c s.
Proof.
  intros Hc.
  change (lstrip_slash ("/public" +:+ "/parts/generated/" +:+ String c s))
    with ("public/parts/generated/" +:+ String c s).
  change ("public/parts/generated/" +:+ String c s)
    with (String "p" ("ublic/parts/generated/" +:+ String c s)).
  unfold OUTPUT_DIR.
  rewrite (path_join_relative _ c s Hc).
  rewrite !path_join_relative by discriminate.
  rewrite !str_app_assoc. f_equal.
Qed.

Lemma resolve_url_elsewhere env (c : ascii) (s : string) :
  c <> "/"%char ->
  PROJECT_ROOT env // lstrip_slash ("/parts/generated/" +:+ String c s)
  <> OUTPUT_DIR env // String c s.
Proof.
  intros Hc.
  change (lstrip_slash ("/parts/generated/" +:+ String c s))
    with (String "p" ("arts/generated/" +:+ String c s)).
  unfold OUTPUT_DIR.
  rewrite (path_join_relative _ c s Hc).
  rewrite !path_join_relative by discriminate.
  rewrite !str_app_assoc. intros Heq.
  apply (inj (String.app _)) in Heq. vm_compute in Heq. discriminate Heq.
Qed.

(** X9: after a [/generate] that answers, the new part is served by the
    static route under <part_id>.glb, and the path that [/merge] and
    [/rig] resolve to it is "/public" followed by the returned [glb_path];
    the returned [glb_path] by itself resolves to a different path. *)
Theorem generated_part_is_found env req w resp w' :
  generate_3d env req w = (Ok resp, w') ->
  exists part_id glb,
    let written := OUTPUT_DIR env // (part_id +:+ ".glb") in
    let glb_url := "/parts/generated/" +:+ part_id +:+ ".glb" in
    resp !! "part_id" = Some (VStr part_id) /\
    resp !! "glb_path" = Some (VStr glb_url) /\
    fs w' !! written = Some (File glb) /\
    serve_generated env (part_id +:+ ".glb") w' = (Ok written, w') /\
    PROJECT_ROOT env // lstrip_slash ("/public" +:+ glb_url) = written /\
    PROJECT_ROOT env // lstrip_slash glb_url <> written.
Proof.
  intros H.
  apply generate_3d_Ok_full in H
    as (pipe & rmbg & w0 & start & orig & w1 & mesh & w2 & finish & part_id
        & _ & _ & _ & Hsave & ->).
  apply save_glb_Ok_inv in Hsave as (hex & glb & -> & _ & Hfs).
  exists ("gen_" +:+ str_take 8 hex), glb. cbv zeta.
  assert (Hfile : fs w' !! (OUTPUT_DIR env // (("gen_" +:+ str_take 8 hex) +:+ ".glb"))
                  = Some (File glb)).
  { rewrite Hfs. apply (lookup_insert_eq (fs _) (token_path env GeneratedMesh hex)). }
  split; [done |]. split; [done |]. split; [exact Hfile |]. split; [| split].
  - unfold serve_generated, bind, path_exists.
    rewrite Hfile. reflexivity.
  - apply (resolve_under_public env "g" ("en_" +:+ str_take 8 hex +:+ ".glb")).
    discriminate.
  - apply (resolve_url_elsewhere env "g" ("en_" +:+ str_take 8 hex +:+ ".glb")).
    discriminate.
Qed.

Lemma generated_part_is_found_witness :
  exists part_id glb,
    let w' := (generate_3d env_ok (generate_req 2) world0).2 in
    let written := OUTPUT_DIR env_ok // (part_id +:+ ".glb") in
    let glb_url := "/parts/generated/" +:+ part_id +:+ ".glb" in
    field (generate_3d env_ok (generate_req 2) world0).1 "part_id"
    = Some (VStr part_id) /\
    field (generate_3d env_ok (generate_req 2) world0).1 "glb_path"
    = Some (VStr glb_url) /\
    fs w' !! written = Some (File glb) /\
    serve_generated env_ok (part_id +:+ ".glb") w' = (Ok written, w') /\
    PROJECT_ROOT env_ok // lstrip_slash ("/public" +:+ glb_url) = written /\
    PROJECT_ROOT env_ok // lstrip_slash glb_url <> written.
Proof.
  apply (generated_part_is_found env_ok (generate_req 2) world0
           match (generate_3d env_ok (generate_req 2) world0).1 with
           | Ok resp => resp
           | Raise _ => ∅
           end).
  vm_compute. reflexivity.
Defined.

(** ** X10: /generate without a face budget *)

(** X10: with no positive face budget (the default is -1), a [/generate]
    that answers exports the reconstructed mesh as it is and reports its
    counts: after the reconstruction the only effects are the clock, the
    uuid, the export and the write; the simplifier is not even imported. *)
Theorem generate_without_budget env req w resp w' :
  faces req <= 0 ->
  generate_3d env req w = (Ok resp, w') ->
  exists pipe rmbg w0 start orig w1 finish hex glb,
    reconstruct env pipe rmbg req w0 = (Ok (start, orig), w1) /\
    trace w' = trace w1 ++ [ Called TimeNow (Ok finish);
                             Called Uuid4Hex (Ok hex);
                             Called (MeshExport orig (token_path env GeneratedMesh hex))
                               (Ok glb);
                             Wrote (token_path env GeneratedMesh hex) ] /\
    resp !! "vertices" = Some (VInt (Z.of_nat (length (mesh_vertices orig)))) /\
    resp !! "faces" = Some (VInt (Z.of_nat (length (mesh_faces orig)))).
Proof.
  intros Hbudget H.
  apply generate_3d_Ok_full in H
    as (pipe & rmbg & w0 & start & orig & w1 & mesh & w2 & finish & part_id
        & _ & Hrec & Hred & Hsave & ->).
  unfold reduce_faces in Hred.
  replace (0 <? faces req)%Z with false in Hred by (symmetry; apply Z.ltb_ge; lia).
  simpl in Hred. injection Hred as <- <-.
  apply save_glb_Ok_inv in Hsave as (hex & glb & -> & Htr & _).
  exists pipe, rmbg, w0, start, orig, w1, finish, hex, glb.
  split; [exact Hrec |]. split; [| done].
  rewrite Htr. simpl. by rewrite <- app_assoc.
Qed.

Lemma generate_without_budget_witness :
  exists pipe rmbg w0 start orig w1 finish hex glb,
    reconstruct env_ok pipe rmbg (generate_req (-1)) w0 = (Ok (start, orig), w1) /\
    trace (generate_3d env_ok (generate_req (-1)) world0).2
    = trace w1 ++ [ Called TimeNow (Ok finish);
                    Called Uuid4Hex (Ok hex);
                    Called (MeshExport orig (token_path env_ok GeneratedMesh hex))
                      (Ok glb);
                    Wrote (token_path env_ok GeneratedMesh hex) ] /\
    match (generate_3d env_ok (generate_req (-1)) world0).1 with
    | Ok resp => resp
    | Raise _ => ∅
    end !! "vertices" = Some (VInt (Z.of_nat (length (mesh_vertices orig)))) /\
    match (generate_3d env_ok (generate_req (-1)) world0).1 with
    | Ok resp => resp
    | Raise _ => ∅
    end !! "faces" = Some (VInt (Z.of_nat (length (mesh_faces orig)))).
Proof.
  apply (generate_without_budget env_ok (generate_req (-1)) world0).
  - simpl. lia.
  - vm_compute. reflexivity.
Defined.

(** ** X11, X12: what /merge leaves on disk *)

Lemma write_file_Raise_inv p content w e w' :
  write_file p content w = (Raise e, w') -> w' = w.
Proof.
  unfold write_file, bind, get_world, set_fs, emit. simpl.
  destruct (fs w !! p) as [[|c]|]; simpl; unfold raise; intros H; by simplify_eq.
Qed.


Lemma getsize_of_file p c w :
  fs w !! p = Some (File c) ->
  getsize p w = (Ok (Z.of_nat (String.length c)), w).
Proof. intros H. unfold getsize, bind, get_world. simpl. by rewrite H. Qed.

(** A [/merge] that answers: the one write and the answer. *)
Lemma merge_parts_Ok_world env req w resp w' :
  merge_parts env req w = (Ok resp, w') ->
  exists glb,
    fs w' = <[merge_output_path env req := File glb]> (fs w) /\
    resp = {[ "merged_path" :=
                VStr ("/parts/generated/" +:+ output_name req +:+ ".glb");
              "parts_count" := VInt (Z.of_nat (length (parts req)));
              "file_size" := VInt (Z.of_nat (String.length glb)) ]}.
Proof.
  unfold merge_parts. intros H.
  apply bind_Ok_inv in H as (combined & w1 & Hloop & H).
  pose proof (merge_loop_same_fs env (parts req) [] 0%nat w) as Hfs1.
  rewrite Hloop in Hfs1. simpl in Hfs1. unfold same_fs in Hfs1.
  apply bind_Ok_inv in H as (glb & w2 & Hexp & H). apply extern_Ok_inv in Hexp as ->.
  apply bind_Ok_inv in H as ([] & w3 & Hw & H). apply write_file_Ok_world in Hw as ->.
  match type of H with
  | bind (getsize _) _ ?w3 = _ =>
      assert (Hfile : fs w3 !! merge_output_path env req = Some (File glb))
        by apply lookup_insert_eq
  end.
  unfold bind at 1 in H. rewrite (getsize_of_file _ _ _ Hfile) in H.
  unfold bind at 1 in H. rewrite (getsize_of_file _ _ _ Hfile) in H.
  injection H as <- <-.
  exists glb. split; [simpl; by rewrite Hfs1 | done].
Qed.

Lemma str_contains_slash_app (a b : string) :
  str_contains_slash (a +:+ b) = str_contains_slash a || str_contains_slash b.
Proof.
  induction a as [|c a IH]; [done |].
  change (String c a +:+ b) with (String c (a +:+ b)).
  simpl. destruct c as [[] [] [] [] [] [] [] []]; try exact IH; reflexivity.
Qed.




(** X12: a [/merge] that fails, for whatever reason (a missing part, a
    part that does not load, a transform that does not compose, an export
    that fails, an output path that is a directory), leaves the file
    system exactly as it was. *)
Theorem merge_parts_failure_leaves_disk env req w e w' :
  merge_parts env req w = (Raise e, w') -> fs w' = fs w.
Proof.
  unfold merge_parts. intros H.
  pose proof (merge_loop_same_fs env (parts req) [] 0%nat w) as Hfs1.
  unfold same_fs in Hfs1.
  apply bind_Raise_inv in H as [H | (combined & w1 & Hloop & H)].
  { by rewrite H in Hfs1. }
  rewrite Hloop in Hfs1. simpl in Hfs1.
  apply bind_Raise_inv in H as [H | (glb & w2 & Hexp & H)].
  { apply extern_fs in H. congruence. }
  apply extern_Ok_inv in Hexp as ->.
  apply bind_Raise_inv in H as [H | ([] & w3 & Hw & H)].
  { apply write_file_Raise_inv in H as ->. exact Hfs1. }
  apply write_file_Ok_world in Hw as ->.
  match type of H with
  | bind (getsize _) _ ?w3 = _ =>
      assert (Hfile : fs w3 !! merge_output_path env req = Some (File glb))
        by apply lookup_insert_eq
  end.
  unfold bind at 1 in H. rewrite (getsize_of_file _ _ _ Hfile) in H.
  unfold bind at 1 in H. rewrite (getsize_of_file _ _ _ Hfile) in H.
  discriminate H.
Qed.

Lemma merge_parts_failure_leaves_disk_witness :
  fs (merge_parts env_ok merge_req_second_missing world_loaded).2 = fs world_loaded.
Proof.
  apply (merge_parts_failure_leaves_disk env_ok merge_req_second_missing world_loaded
           (HTTPException 404 "Part not found: /public/parts/missing.glb")).
  vm_compute. reflexivity.
Defined.

(** ** X13: what a successful /search-image leaves on disk *)

Lemma getitem_world d k w r w' : getitem d k w = (r, w') -> w' = w.
Proof.
  unfold getitem. destruct (d !! k); unfold ret, raise; intros H; by simplify_eq.
Qed.

Lemma mapM_Ok_length {A B} (f : A -> M B) (l : list A) : forall w ys w',
  mapM f l w = (Ok ys, w') -> length ys = length l.
Proof.
  induction l as [|x l IH]; intros w ys w' H; simpl in H.
  - injection H as <- _. done.
  - apply bind_Ok_inv in H as (y & w1 & _ & H).
    apply bind_Ok_inv in H as (ys' & w2 & Hl & H).
    injection H as <- _. simpl. f_equal. by eapply IH.
Qed.

Lemma save_png_Ok_inv env image w img_id w' :
  save_png env image w = (Ok img_id, w') ->
  exists hex png,
    img_id = "ref_" +:+ str_take 8 hex /\
    fs w' = <[token_path env ReferenceImage hex := File png]> (fs w).
Proof.
  unfold save_png. intros H.
  apply bind_Ok_inv in H as (hex & w1 & H1 & H). apply extern_Ok_inv in H1 as ->.
  apply bind_Ok_inv in H as (png & w2 & H2 & H). apply extern_Ok_inv in H2 as ->.
  apply bind_Ok_inv in H as ([] & w3 & H3 & H). apply write_file_Ok_world in H3 as ->.
  injection H as <- <-. by exists hex, png.
Qed.

(** The optional background removal touches no file. *)
Lemma remove_bg_block_same_fs env (b : bool) image :
  respects same_fs
    (if b then
       try_except (extern env (PyImport "rembg");; extern env (RembgRemove image))
         (fun e => if is_ImportError e then ret image else raise e)
     else ret image).
Proof. respects_tac ltac:(apply sf_extern). Qed.

(** X13: a [/search-image] that answers with an image has written exactly
    one file, ref_<t>.png in the output directory with <t> the first eight
    digits of a uuid; [image_path] names it, and the list of candidates it
    returns has at most five entries. *)
Theorem search_image_success env req w resp w' id :
  search_image env req w = (Ok resp, w') ->
  resp !! "image_id" = Some id ->
  exists hex png candidates,
    id = VStr ("ref_" +:+ str_take 8 hex) /\
    fs w' = <[token_path env ReferenceImage hex := File png]> (fs w) /\
    resp !! "image_path"
    = Some (VStr ("/parts/generated/ref_" +:+ str_take 8 hex +:+ ".png")) /\
    resp !! "all_results" = Some (VList candidates) /\
    (length candidates <= 5)%nat.
Proof.
  unfold search_image, try_except.
  destruct (search_body env req w) as [[r|e] wb] eqn:Hb;
    [| destruct (is_ImportError e); discriminate].
  intros [= -> ->] Hid. unfold search_body in Hb.
  apply bind_Ok_inv in Hb as (results & w1 & Hs & H).
  assert (Hfs1 : fs w1 = fs w).
  { assert (Hr : respects same_fs (ddgs_search env (query req))).
    { unfold ddgs_search. respects_tac ltac:(apply sf_extern). }
    specialize (Hr w). by rewrite Hs in Hr. }
  destruct results as [|first rest].
  - injection H as <- <-. discriminate.
  - apply bind_Ok_inv in H as (u & w2 & H2 & H). apply extern_fs in H2.
    apply bind_Ok_inv in H as (image_url & w3 & H3 & H). apply getitem_world in H3 as ->.
    apply bind_Ok_inv in H as (content & w4 & H4 & H). apply extern_fs in H4.
    apply bind_Ok_inv in H as (image0 & w5 & H5 & H). apply extern_fs in H5.
    apply bind_Ok_inv in H as (image1 & w6 & H6 & H). apply extern_fs in H6.
    apply bind_Ok_inv in H as (image & w7 & H7 & H).
    pose proof (remove_bg_block_same_fs env (remove_bg req) image1 w6) as Hfs7.
    rewrite H7 in Hfs7. simpl in Hfs7. unfold same_fs in Hfs7.
    apply bind_Ok_inv in H as (img_id & w8 & Hsave & H).
    apply bind_Ok_inv in H as (all_results & w9 & Hmap & H).
    injection H as <- <-.
    pose proof (mapM_search_entries_world (take 5 (first :: rest)) w8) as Hw.
    rewrite Hmap in Hw. simpl in Hw. subst w9.
    apply mapM_Ok_length in Hmap.
    apply save_png_Ok_inv in Hsave as (hex & png & -> & Hfs8).
    rewrite lookup_insert_eq in Hid. injection Hid as <-.
    exists hex, png, all_results.
    split; [done |]. split; [| split; [done | split; [done |]]].
    + by rewrite Hfs8, Hfs7, H6, H5, H4, H2, Hfs1.
    + rewrite Hmap, length_take. lia.
Qed.

Lemma search_image_success_witness :
  exists hex png candidates,
    VStr "ref_3f2a9c01" = VStr ("ref_" +:+ str_take 8 hex) /\
    fs (search_image env_found search_req0 world0).2
    = <[token_path env_found ReferenceImage hex := File png]> (fs world0) /\
    match (search_image env_found search_req0 world0).1 with
    | Ok resp => resp
    | Raise _ => ∅
    end !! "image_path"
    = Some (VStr ("/parts/generated/ref_" +:+ str_take 8 hex +:+ ".png")) /\
    match (search_image env_found search_req0 world0).1 with
    | Ok resp => resp
    | Raise _ => ∅
    end !! "all_results" = Some (VList candidates) /\
    (length candidates <= 5)%nat.
Proof.
  apply (search_image_success env_found search_req0 world0
           match (search_image env_found search_req0 world0).1 with
           | Ok resp => resp
           | Raise _ => ∅
           end).
  - vm_compute. reflexivity.
  - vm_compute. reflexivity.
Defined.

(** ** X14: how /generate fails *)

Lemma get_triposg_models_returns_global env w :
  exists p n w',
    get_triposg_models env w = (Ok (p, n), w') /\ triposg_pipe w' = p.
Proof.
  unfold get_triposg_models, bind, get_world. simpl.
  destruct (triposg_pipe w) as [pipe|] eqn:Hp; simpl.
  - eexists _, _, _. split; [reflexivity | done].
  - unfold try_except.
    destruct (load_triposg_models env w) as [[[p n]|e] w'] eqn:Hl.
    + apply load_triposg_models_globals in Hl as (_ & Hw & _).
      eexists _, _, _. split; [reflexivity | done].
    + apply load_triposg_models_globals in Hl.
      exists None, None, w'. split; [by destruct (is_ImportError e) |].
      congruence.
Qed.



(** ** X15: /search-image without its search library *)

(** X15: when the import of duckduckgo_search raises, the import is the
    only thing [/search-image] does: an [ImportError] is answered with the
    503 that names the missing package, any other exception with a 500
    that carries its message. *)
Theorem search_image_import_failure env req w e0 :
  respond env _ (PyImport "duckduckgo_search") w = Raise e0 ->
  search_image env req w
  = (Raise (if is_ImportError e0
            then HTTPException 503
                   "duckduckgo_search not installed. pip install duckduckgo_search httpx"
            else HTTPException 500 ("Image search failed: " +:+ str_exn e0)),
     add_event (Called (PyImport "duckduckgo_search") (Raise e0)) w).
Proof.
  intros H.
  unfold search_image, try_except, search_body, ddgs_search, bind, extern.
  rewrite H. by destruct (is_ImportError e0).
Qed.

Lemma search_image_import_failure_witness :
  search_image env_bare search_req0 world0
  = (Raise (HTTPException 503
              "duckduckgo_search not installed. pip install duckduckgo_search httpx"),
     add_event (Called (PyImport "duckduckgo_search")
                  (Raise (PyExc ImportError "No module named 'torch'"))) world0).
Proof.
  apply (search_image_import_failure env_bare search_req0 world0
           (PyExc ImportError "No module named 'torch'")).
  reflexivity.
Defined.

(** ** X17: the result of the rigging steps *)

Lemma path_exists_inv p w b w' :
  path_exists p w = (Ok b, w') -> w' = w /\ b = bool_decide (is_Some (fs w !! p)).
Proof. unfold path_exists. intros H. by simplify_eq. Qed.

Lemma read_file_world p w r w' : read_file p w = (r, w') -> w' = w.
Proof.
  unfold read_file, bind, get_world. simpl.
  destruct (fs w !! p) as [[|c]|]; unfold ret, raise; intros H; by simplify_eq.
Qed.

Lemma py_get_world v k d w r w' : py_get v k d w = (r, w') -> w' = w.
Proof. destruct v; unfold py_get, ret, raise; intros H; by simplify_eq. Qed.

Lemma py_len_Ok_inv v w n w' : py_len v w = (Ok n, w') -> w' = w /\ 0 <= n.
Proof.
  destruct v; unfold py_len, ret, raise; intros H; simplify_eq; split; try done; lia.
Qed.

(** X17: when the rigging steps of [rig_bot]'s [try] block return a
    result, it names the work directory and the input, and it has one of
    two shapes, decided by whether skin.json is in the work directory after
    the steps: without it, [skin_json] is null and a message says so; with
    it, [skin_json] is its URL and [bone_count] and [vertex_count] are
    lengths read from it, never negative. *)
Theorem rig_pipeline_result env req mesh_path w resp w' :
  rig_pipeline env req mesh_path w = (Ok resp, w') ->
  let skin_json_path := rig_work_dir env req // "skin.json" in
  resp !! "output_dir" = Some (VStr (rig_work_dir env req)) /\
  resp !! "glb_input" = Some (VStr (glb_path req)) /\
  ((fs w' !! skin_json_path = None /\
    resp !! "skin_json" = Some VNone /\
    resp !! "message"
    = Some (VStr "Rigging completed but skin.json not generated") /\
    resp !! "bone_count" = None) \/
   (is_Some (fs w' !! skin_json_path) /\
    resp !! "skin_json"
    = Some (VStr ("/parts/generated/rig_" +:+ rig_output_name req +:+ "/skin.json")) /\
    exists bones vertices,
      resp !! "bone_count" = Some (VInt bones) /\ 0 <= bones /\
      resp !! "vertex_count" = Some (VInt vertices) /\ 0 <= vertices)).
Proof.
  intros H skin_json_path. unfold rig_pipeline in H.
  apply bind_Ok_inv in H as ([] & w1 & _ & H).
  apply bind_Ok_inv in H as (has_venv & w2 & _ & H).
  apply bind_Ok_inv in H as (skel & w3 & _ & H).
  destruct (negb (returncode skel =? 0)%Z); [discriminate |].
  apply bind_Ok_inv in H as (skin & w4 & _ & H).
  destruct (negb (returncode skin =? 0)%Z); [discriminate |].
  apply bind_Ok_inv in H as (has_script & w5 & _ & H).
  apply bind_Ok_inv in H as ([] & w6 & _ & H).
  apply bind_Ok_inv in H as (has_json & w7 & Hex & H).
  apply path_exists_inv in Hex as [-> ->].
  fold skin_json_path in H.
  destruct (fs w6 !! skin_json_path) as [node|] eqn:Hl.
  - rewrite bool_decide_eq_true_2 in H by eauto.
    apply bind_Ok_inv in H as (text & w8 & Hr & H). apply read_file_world in Hr as ->.
    apply bind_Ok_inv in H as (skin_data & w9 & Hj & H).
    pose proof (extern_fs _ _ _ _ _ Hj) as Hfs. clear Hj.
    apply bind_Ok_inv in H as (bones & wa & Hb & H). apply py_get_world in Hb as ->.
    apply bind_Ok_inv in H as (nb & wb & Hnb & H). apply py_len_Ok_inv in Hnb as [-> Hnb].
    apply bind_Ok_inv in H as (weights & wc & Hw & H). apply py_get_world in Hw as ->.
    apply bind_Ok_inv in H as (nv & wd & Hnv & H). apply py_len_Ok_inv in Hnv as [-> Hnv].
    injection H as <- <-.
    split; [done |]. split; [done |]. right.
    split; [rewrite Hfs, Hl; eauto |]. split; [done |].
    exists nb, nv. done.
  - rewrite bool_decide_eq_false_2 in H by (by intros [? ?]).
    injection H as <- <-.
    split; [done |]. split; [done |]. left. done.
Qed.

Lemma rig_pipeline_result_witness :
  let run :=
    rig_pipeline env_rigged rig_req0
      "/srv/battle-bots/public/parts/generated/gen_3f2a9c01.glb" world_loaded in
  let resp := match run.1 with Ok resp => resp | Raise _ => ∅ end in
  let skin_json_path := rig_work_dir env_rigged rig_req0 // "skin.json" in
  resp !! "output_dir" = Some (VStr (rig_work_dir env_rigged rig_req0)) /\
  resp !! "glb_input" = Some (VStr (glb_path rig_req0)) /\
  ((fs run.2 !! skin_json_path = None /\
    resp !! "skin_json" = Some VNone /\
    resp !! "message"
    = Some (VStr "Rigging completed but skin.json not generated") /\
    resp !! "bone_count" = None) \/
   (is_Some (fs run.2 !! skin_json_path) /\
    resp !! "skin_json"
    = Some (VStr ("/parts/generated/rig_" +:+ rig_output_name rig_req0 +:+ "/skin.json")) /\
    exists bones vertices,
      resp !! "bone_count" = Some (VInt bones) /\ 0 <= bones /\
      resp !! "vertex_count" = Some (VInt vertices) /\ 0 <= vertices)).
Proof.
  intros run resp skin_json_path.
  apply (rig_pipeline_result env_rigged rig_req0
           "/srv/battle-bots/public/parts/generated/gen_3f2a9c01.glb" world_loaded
           resp run.2).
  vm_compute. reflexivity.
Defined.

(** The rigged environment does yield two bones and three weighted
    vertices. *)
Example rig_pipeline_counts :
  let run :=
    rig_pipeline env_rigged rig_req0
      "/srv/battle-bots/public/parts/generated/gen_3f2a9c01.glb" world_loaded in
  field run.1 "bone_count" = Some (VInt 2)
  /\ field run.1 "vertex_count" = Some (VInt 3).
Proof. split; vm_compute; reflexivity. Qed.

(** ** X18: /status counts the parts that were written *)

Lemma str_prefix_app (d x : string) : String.prefix d (d +:+ x) = true.
Proof.
  induction d as [|c d IH]; simpl; [by destruct x |].
  change (String c d +:+ x) with (String c (d +:+ x)). simpl.
  destruct (ascii_dec c c); [exact IH | done].
Qed.

Lemma substring_skip (d x : string) (n : nat) :
  String.substring (String.length d) n (d +:+ x) = String.substring 0 n x.
Proof.
  induction d as [|c d IH]; [done |].
  change (String c d +:+ x) with (String c (d +:+ x)). simpl. exact IH.
Qed.

Lemma substring_all (x : string) : String.substring 0 (String.length x) x = x.
Proof. induction x as [|c x IH]; simpl; [done | by rewrite IH]. Qed.

Lemma str_ends_with_app (name suffix : string) :
  str_ends_with suffix (name +:+ suffix) = true.
Proof.
  unfold str_ends_with. rewrite str_length_app.
  replace (String.length name + String.length suffix - String.length suffix)%nat
    with (String.length name) by lia.
  rewrite substring_skip, substring_all, String.eqb_refl.
  rewrite andb_true_r. apply Nat.leb_le. lia.
Qed.

(** A name without a slash, extended by ".glb": not empty and not
    absolute. *)
Lemma glb_name_relative (name : string) :
  str_contains_slash name = false ->
  exists c r, name +:+ ".glb" = String c r /\ c <> "/"%char.
Proof.
  destruct name as [|c r]; intros H.
  - exists "."%char, "glb". split; [done | discriminate].
  - exists c, (r +:+ ".glb"). split; [done |].
    intros ->. discriminate H.
Qed.

(** Such a file, put into the output directory, is one [/status] counts. *)
Lemma glb_entry_counted env (name : string) :
  str_contains_slash name = false ->
  is_entry_with_suffix (OUTPUT_DIR env) ".glb" (OUTPUT_DIR env // (name +:+ ".glb"))
  = true.
Proof.
  intros Hname.
  destruct (glb_name_relative name Hname) as (c & r & Heq & Hc).
  rewrite Heq, (path_join_relative _ c r Hc), <- Heq.
  unfold is_entry_with_suffix. cbv zeta.
  rewrite <- (str_app_assoc (OUTPUT_DIR env) "/" (name +:+ ".glb")).
  rewrite str_prefix_app. simpl.
  rewrite (str_length_app (OUTPUT_DIR env +:+ "/")).
  replace (String.length (OUTPUT_DIR env +:+ "/") + String.length (name +:+ ".glb")
           - String.length (OUTPUT_DIR env +:+ "/"))%nat
    with (String.length (name +:+ ".glb")) by lia.
  rewrite substring_skip, substring_all.
  rewrite str_contains_slash_app, Hname, str_ends_with_app. reflexivity.
Qed.

Lemma count_glb_insert env (f : gmap string Node) p node :
  is_entry_with_suffix (OUTPUT_DIR env) ".glb" p = true ->
  count_glb env (<[p := node]> f)
  = match f !! p with
    | Some _ => count_glb env f
    | None => count_glb env f + 1
    end.
Proof.
  intros Hp. unfold count_glb. rewrite dom_insert_L.
  destruct (f !! p) as [old|] eqn:Hl.
  - apply elem_of_dom_2 in Hl.
    replace ({[p]} ∪ dom f) with (dom f); [done |].
    symmetry. apply subseteq_union_1_L. by apply singleton_subseteq_l.
  - apply not_elem_of_dom in Hl.
    rewrite filter_union_L by apply _.
    rewrite filter_singleton_L by apply _. rewrite decide_True by exact Hp.
    rewrite size_union.
    + rewrite size_singleton. lia.
    + intros q Hq1 Hq2. apply elem_of_singleton in Hq1 as ->.
      apply elem_of_filter in Hq2 as [_ Hq2]. done.
Qed.

Lemma status_counts env w :
  field (status env w).1 "generated_parts" = Some (VInt (count_glb env (fs w))).
Proof.
  unfold status, bind, try_except, extern, glob_count, get_world, ret, bind.
  destruct (respond env unit (PyImport "torch") w) as [[]|e1]; simpl.
  - destruct (respond env bool CudaIsAvailable _) as [[|]|e2]; simpl.
    + destruct (respond env _ GpuStats _) as [stats|e3]; reflexivity.
    + reflexivity.
    + reflexivity.
  - reflexivity.
Qed.

(** X18: when a [/merge] with an [output_name] that holds no slash has
    answered, [/status] counts one generated part more than before if the
    output file is new, and as many as before if the request replaced a
    file of the same name. *)
Theorem status_counts_merged_part env req w resp w' :
  merge_parts env req w = (Ok resp, w') ->
  str_contains_slash (output_name req) = false ->
  exists before after,
    field (status env w).1 "generated_parts" = Some (VInt before) /\
    field (status env w').1 "generated_parts" = Some (VInt after) /\
    after = match fs w !! merge_output_path env req with
            | Some _ => before
            | None => before + 1
            end.
Proof.
  intros Hm Hname.
  apply merge_parts_Ok_world in Hm as (glb & Hfs & _).
  exists (count_glb env (fs w)), (count_glb env (fs w')).
  split; [apply status_counts |]. split; [apply status_counts |].
  rewrite Hfs. apply count_glb_insert.
  unfold merge_output_path. by apply glb_entry_counted.
Qed.

Lemma status_counts_merged_part_witness :
  exists before after,
    field (status env_ok world_loaded).1 "generated_parts" = Some (VInt before) /\
    field (status env_ok (merge_parts env_ok merge_req_generated world_loaded).2).1
      "generated_parts" = Some (VInt after) /\
    after = match fs world_loaded !! merge_output_path env_ok merge_req_generated with
            | Some _ => before
            | None => before + 1
            end.
Proof.
  apply (status_counts_merged_part env_ok merge_req_generated world_loaded
           match (merge_parts env_ok merge_req_generated world_loaded).1 with
           | Ok resp => resp
           | Raise _ => ∅
           end).
  - vm_compute. reflexivity.
  - reflexivity.
Defined.

(** ** X19: what a failed /generate leaves on disk *)

Lemma extern_inv env {A} (c : Call A) w r w' :
  extern env c w = (r, w') -> w' = add_event (Called c r) w.
Proof. unfold extern. by intros [= <- <-]. Qed.

Lemma respects_run (R : relation World) {A} (m : M A) w r w' :
  respects R m -> m w = (r, w') -> R w w'.
Proof. intros Hm H. specialize (Hm w). by rewrite H in Hm. Qed.

#[local] Instance only_temps_touched_preorder own :
  PreOrder (only_temps_touched own).
Proof.
  split.
  - intros w. exists []. split; [by rewrite app_nil_r | done].
  - intros w1 w2 w3 (e1 & H1 & F1) (e2 & H2 & F2). exists (e1 ++ e2). split.
    + by rewrite H2, H1, app_assoc.
    + intros p Hown Hp Hexp.
      rewrite F2; [apply F1 | | |]; try done.
      * intros Hin. apply Hp, elem_of_app. auto.
      * intros mesh r Hin. apply (Hexp mesh r), elem_of_app. auto.
      * intros Hin. apply Hp, elem_of_app. auto.
      * intros mesh r Hin. apply (Hexp mesh r), elem_of_app. auto.
Qed.

Section TempFiles.
Context (env : Env) (own : list string).





End TempFiles.











(** With an exporter that raises, the request fails and the file that was
    opened for the export is left, empty. *)
Example generate_failed_export_leaves_file :
  (generate_3d env_failed_mesh_export (generate_req (-1)) world0).1
  = Raise (HTTPException 500 "Generation failed: cannot export")
  /\ fs (generate_3d env_failed_mesh_export (generate_req (-1)) world0).2
       !! token_path env_failed_mesh_export GeneratedMesh
            "3f2a9c01d4e84b7a9b1c5d6e7f809a1b"
     = Some (File "").
Proof. split; vm_compute; reflexivity. Qed.

(** ** X20: the temporary file of a /generate whose image cannot be saved *)

Lemma bind_inv {A B} (m : M A) (f : A -> M B) w r w' :
  bind m f w = (r, w') ->
  (exists e, m w = (Raise e, w') /\ r = Raise e)
  \/ exists a w1, m w = (Ok a, w1) /\ f a w1 = (r, w').
Proof.
  unfold bind. destruct (m w) as [[a|e] w1]; intros H.
  - right. eauto.
  - left. exists e. by simplify_eq.
Qed.

Lemma extends_with_mono (P Q : Event -> Prop) w w' :
  (forall ev, P ev -> Q ev) -> extends_with P w w' -> extends_with Q w w'.
Proof.
  intros HPQ (evs & Htr & HP). exists evs. split; [done |].
  eapply Forall_impl; eauto.
Qed.

Section MoreTraceFacts.
Context (P : Event -> Prop).

Lemma ew_write_file p content :
  P (Wrote p) -> respects (extends_with P) (write_file p content).
Proof.
  intros HP w. unfold write_file, bind, get_world, set_fs, emit. simpl.
  destruct (fs w !! p) as [[|c]|]; simpl;
    first [ exists []; split; [by rewrite app_nil_r | done]
          | eexists [_]; split; [reflexivity | by constructor] ].
Qed.

Lemma ew_unlink p : P (Unlinked p) -> respects (extends_with P) (unlink p).
Proof.
  intros HP w. unfold unlink, bind, get_world, set_fs, emit. simpl.
  destruct (fs w !! p) as [[|c]|]; simpl;
    first [ exists []; split; [by rewrite app_nil_r | done]
          | eexists [_]; split; [reflexivity | by constructor] ].
Qed.

Lemma ew_open_wb p : respects (extends_with P) (open_wb p).
Proof.
  intros w. unfold open_wb, bind, get_world, set_fs. simpl.
  destruct (fs w !! p) as [[|c]|]; simpl; exists []; by rewrite app_nil_r.
Qed.

Lemma ew_getsize p : respects (extends_with P) (getsize p).
Proof.
  intros w. unfold getsize, bind, get_world. simpl.
  destruct (fs w !! p) as [[|c]|]; simpl; exists []; by rewrite app_nil_r.
Qed.
End MoreTraceFacts.

(** The loader saves no image and removes no file. *)
Lemma get_triposg_models_no_encode env :
  respects (extends_with (fun ev => encode_failure ev = None
                                    /\ is_unlink ev = false))
           (get_triposg_models env).
Proof.
  unfold get_triposg_models, load_triposg_models.
  respects_tac ltac:(first [ apply ew_extern; intros ?; by split
                           | apply ew_set_rmbg_net
                           | apply ew_set_triposg_pipe ]).
Qed.

Ltac no_encode_prim :=
  first [ apply ew_extern; intros ?; reflexivity
        | apply ew_write_file; reflexivity
        | apply ew_unlink; reflexivity
        | apply ew_open_wb
        | apply ew_getsize ].

(** A reconstruction either has no failed [image.save] among its events,
    or stopped at it: the temporary file was named and created, and is
    still there. *)
Lemma reconstruct_encode_cases env pipe rmbg req w r w1 :
  reconstruct env pipe rmbg req w = (r, w1) ->
  extends_with (fun ev => encode_failure ev = None) w w1
  \/ exists image tmp e0,
       r = Raise e0 /\
       trace w1
       = trace w
         ++ [ Called (PyImport "torch") (Ok tt);
              Called (PyImport "image_process") (Ok tt);
              Called (PyImport "tempfile") (Ok tt);
              Called (ImageOpen (file_content (file req))) (Ok image);
              Called (MkTemp ".png") (Ok tmp);
              Wrote tmp;
              Called (ImageEncode image "PNG") (Raise e0) ] /\
       fs w1 = <[tmp := File ""]> (fs w).
Proof.
  unfold reconstruct. intros H.
  assert (Hstop : forall evs : list Event,
             Forall (fun ev => encode_failure ev = None) evs ->
             extends_with (fun ev => encode_failure ev = None) w
               {| triposg_pipe := triposg_pipe w; rmbg_net := rmbg_net w;
                  fs := fs w; trace := trace w ++ evs |}).
  { intros evs Hevs. by exists evs. }
  apply bind_inv in H as [(e & H & ->) | ([] & wa & Ha & H)].
  { left. apply extern_inv in H as ->. eexists [_]. split; [done | by constructor]. }
  apply extern_Ok_inv in Ha as ->.
  apply bind_inv in H as [(e & H & ->) | ([] & wb & Hb & H)].
  { left. apply extern_inv in H as ->. eexists [_; _]. simpl.
    split; [by rewrite <- !app_assoc | by repeat constructor]. }
  apply extern_Ok_inv in Hb as ->.
  apply bind_inv in H as [(e & H & ->) | ([] & wc & Hc & H)].
  { left. apply extern_inv in H as ->. eexists [_; _; _]. simpl.
    split; [by rewrite <- !app_assoc | by repeat constructor]. }
  apply extern_Ok_inv in Hc as ->.
  apply bind_inv in H as [(e & H & ->) | (image & wd & Hd & H)].
  { left. apply extern_inv in H as ->. eexists [_; _; _; _]. simpl.
    split; [by rewrite <- !app_assoc | by repeat constructor]. }
  apply extern_Ok_inv in Hd as ->.
  apply bind_inv in H as [(e & H & ->) | (tmp & we & He & H)].
  { left. apply extern_inv in H as ->. eexists [_; _; _; _; _]. simpl.
    split; [by rewrite <- !app_assoc | by repeat constructor]. }
  apply extern_Ok_inv in He as ->.
  apply bind_inv in H as [(e & H & ->) | ([] & wf & Hf & H)].
  { left. apply write_file_Raise_inv in H as ->. eexists [_; _; _; _; _]. simpl.
    split; [by rewrite <- !app_assoc | by repeat constructor]. }
  apply write_file_Ok_world in Hf as ->.
  apply bind_inv in H as [(e & H & ->) | (png & wg & Hg & H)].
  { right. apply extern_inv in H as ->. exists image, tmp, e.
    split; [done |]. simpl. split; [by rewrite <- !app_assoc | done]. }
  apply extern_Ok_inv in Hg as ->.
  left.
  match type of H with
  | ?m ?w7 = _ =>
      assert (Hrest : extends_with (fun ev => encode_failure ev = None) w7 w1)
  end.
  { eapply respects_run; [| exact H]. respects_tac no_encode_prim. }
  destruct Hrest as (evs & Htr & Hevs).
  eexists ([_; _; _; _; _; _; _] ++ evs). split.
  - rewrite Htr. simpl. by rewrite <- !app_assoc.
  - apply Forall_app. split; [by repeat constructor | exact Hevs].
Qed.

(** After the reconstruction, no image is saved. *)
Lemma generate_tail_no_encode env (req : GenerateParams) (sm : float * Mesh) :
  respects (extends_with (fun ev => encode_failure ev = None))
    (mesh <- reduce_faces env (faces req) sm.2;;
     finish <- extern env TimeNow;;
     let elapsed := PrimFloat.sub finish sm.1 in
     part_id <- save_glb env mesh;;
     ret ({[ "part_id" := VStr part_id;
             "glb_path" := VStr ("/parts/generated/" +:+ part_id +:+ ".glb");
             "vertices" := VInt (Z.of_nat (length (mesh_vertices mesh)));
             "faces" := VInt (Z.of_nat (length (mesh_faces mesh)));
             "elapsed_s" := VFloat (round2 env elapsed) ]} : pydict)).
Proof.
  unfold reduce_faces, reduce_faces_attempt, save_glb.
  respects_tac no_encode_prim.
Qed.

(** X20: when, during a [/generate], saving the uploaded image into the
    temporary file raises, the request is answered with the 500 that
    carries the message of what was raised, and the temporary file, created
    with [delete=False] before the [try]/[finally] that removes it, is left
    on disk: the request removes no file at all. *)
Theorem generate_3d_leaves_temp_file env req w r w' evs img e0 :
  generate_3d env req w = (r, w') ->
  trace w' = trace w ++ evs ->
  Called (ImageEncode img "PNG") (Raise e0) ∈ evs ->
  r = Raise (HTTPException 500 ("Generation failed: " +:+ str_exn e0)) /\
  (exists tmp content,
     Called (MkTemp ".png") (Ok tmp) ∈ evs /\
     fs w' !! tmp = Some (File content)) /\
  forall p, Unlinked p ∉ evs.
Proof.
  intros H Htr Hin. unfold generate_3d in H.
  apply bind_inv in H as [(e & H & ->) | ([p n] & w0 & Hget & H)].
  { destruct (get_triposg_models_returns_global env w) as (? & ? & ? & Hg & _).
    congruence. }
  pose proof (respects_run _ _ _ _ _ (get_triposg_models_no_encode env) Hget)
    as (evs0 & Htr0 & Hevs0).
  assert (Hclean : forall w2,
             extends_with (fun ev => encode_failure ev = None) w0 w2 ->
             trace w2 = trace w ++ evs -> False).
  { intros w2 (evs2 & Htr2 & Hevs2) Heq.
    rewrite Htr2, Htr0, <- app_assoc in Heq. apply app_inv_head in Heq as <-.
    apply elem_of_app in Hin as [Hin | Hin].
    - rewrite Forall_forall in Hevs0. by destruct (Hevs0 _ Hin).
    - rewrite Forall_forall in Hevs2. by specialize (Hevs2 _ Hin). }
  simpl in H. destruct p as [pipe|].
  2:{ injection H as _ <-. exfalso. apply (Hclean w0); [reflexivity | done]. }
  unfold try_except in H.
  destruct (generate_body env pipe n req w0) as [rb wb] eqn:Hb.
  assert (w' = wb) as ->
    by (destruct rb; simpl in H; unfold raise in H; by simplify_eq).
  unfold generate_body in Hb.
  apply bind_inv in Hb as [(e & Hrec & ->) | (sm & w1 & Hrec & Hb)].
  - apply reconstruct_encode_cases in Hrec
      as [Hext | (image & tmp & e1 & He & Htr1 & Hfs1)].
    { exfalso. by apply (Hclean wb). }
    injection He as ->. injection H as <-.
    rewrite Htr1, Htr0, <- app_assoc in Htr. apply app_inv_head in Htr as <-.
    assert (Hnot0 : forall ev, ev ∈ evs0 ->
              encode_failure ev = None /\ is_unlink ev = false).
    { by apply Forall_forall. }
    split; [| split].
    + apply elem_of_app in Hin as [Hin | Hin].
      { by destruct (Hnot0 _ Hin). }
      repeat (apply elem_of_cons in Hin as [Hin | Hin];
              [apply (f_equal encode_failure) in Hin; simpl in Hin;
               try discriminate Hin |]).
      * by injection Hin as ->.
      * by apply elem_of_nil in Hin.
    + exists tmp, "". split.
      * apply elem_of_app. right. do 4 apply list_elem_of_further.
        apply list_elem_of_here.
      * rewrite Hfs1. apply lookup_insert_eq.
    + intros p Hp. apply elem_of_app in Hp as [Hp | Hp].
      { by destruct (Hnot0 _ Hp). }
      repeat (apply elem_of_cons in Hp as [Hp | Hp]; [discriminate Hp |]).
      by apply elem_of_nil in Hp.
  - exfalso. apply (Hclean wb); [| done].
    apply reconstruct_encode_cases in Hrec
      as [Hext | (image & tmp & e1 & He & _)]; [| discriminate He].
    etrans; [exact Hext |].
    exact (respects_run _ _ _ _ _ (generate_tail_no_encode env req sm) Hb).
Qed.

Lemma generate_3d_leaves_temp_file_witness :
  (generate_3d env_failed_encode (generate_req (-1)) world0).1
  = Raise (HTTPException 500
             ("Generation failed: "
              +:+ str_exn (PyExc OSError "cannot write mode P as PNG"))) /\
  (exists tmp content,
     Called (MkTemp ".png") (Ok tmp)
     ∈ trace (generate_3d env_failed_encode (generate_req (-1)) world0).2 /\
     fs (generate_3d env_failed_encode (generate_req (-1)) world0).2 !! tmp
     = Some (File content)) /\
  forall p,
    Unlinked p ∉ trace (generate_3d env_failed_encode (generate_req (-1)) world0).2.
Proof.
  apply (generate_3d_leaves_temp_file env_failed_encode (generate_req (-1)) world0
           _ _ _ {| width := 512; height := 512; pixels := "PNG" |}).
  - apply surjective_pairing.
  - vm_compute. reflexivity.
  - vm_compute. do 13 (try apply list_elem_of_further).
    repeat first [ apply list_elem_of_here | apply list_elem_of_further ].
Defined.

(** ** X21: what a failed /search-image leaves on disk *)

Lemma save_png_Raise_fs env image w e w' :
  save_png env image w = (Raise e, w') -> fs w' = fs w.
Proof.
  unfold save_png. intros H.
  apply bind_Raise_inv in H as [H | (hex & w1 & H1 & H)].
  { by apply extern_fs in H. }
  apply extern_Ok_inv in H1 as ->.
  apply bind_Raise_inv in H as [H | (png & w2 & H2 & H)].
  { by apply extern_fs in H. }
  apply extern_Ok_inv in H2 as ->.
  apply bind_Raise_inv in H as [H | ([] & w3 & H3 & H)].
  { by apply write_file_Raise_inv in H as ->. }
  discriminate H.
Qed.

(** Building the list of candidates touches nothing, and fails in one way
    only: on an entry without "image". *)
Lemma search_entries_Raise_inv (l : list pydict) : forall w e w',
  mapM search_result_entry l w = (Raise e, w') ->
  w' = w /\ e = PyExc KeyError "'image'" /\ exists r, r ∈ l /\ r !! "image" = None.
Proof.
  induction l as [|r l IH]; intros w e w' H; simpl in H; [discriminate H |].
  apply bind_Raise_inv in H as [H | (y & w1 & Hy & H)].
  - unfold search_result_entry, getitem in H.
    destruct (r !! "image") as [url|] eqn:Hr; [discriminate H |].
    injection H as <- <-. split; [done |]. split; [done |].
    exists r. split; [left | done].
  - assert (w1 = w) as ->.
    { unfold search_result_entry, getitem in Hy.
      destruct (r !! "image"); [| discriminate Hy]. by injection Hy. }
    apply bind_Raise_inv in H as [H | (ys & w2 & Hys & H)]; [| discriminate H].
    apply IH in H as (-> & -> & r' & Hin & Hr').
    split; [done |]. split; [done |]. exists r'. split; [by right | done].
Qed.

(** X21: a [/search-image] that fails has either left the disk as it was,
    or has already saved the downloaded image: the list of candidates is
    built after the save, so an entry without "image" among the results
    (the first one has it) turns the request into the 500 for that key
    while ref_<t>.png stays in the output directory. *)
Theorem search_image_failure_disk env req w e w' :
  search_image env req w = (Raise e, w') ->
  fs w' = fs w
  \/ exists hex png,
       fs w' = <[token_path env ReferenceImage hex := File png]> (fs w) /\
       e = HTTPException 500 "Image search failed: 'image'".
Proof.
  unfold search_image, try_except.
  destruct (search_body env req w) as [[r|e0] wb] eqn:Hb; [discriminate |].
  intros H.
  assert (w' = wb) as ->
    by (destruct (is_ImportError e0); unfold raise in H; by simplify_eq).
  unfold search_body in Hb.
  apply bind_Raise_inv in Hb as [Hb | (results & w1 & Hs & Hb)].
  { left. assert (Hr : respects same_fs (ddgs_search env (query req))).
    { unfold ddgs_search. respects_tac ltac:(apply sf_extern). }
    exact (respects_run _ _ _ _ _ Hr Hb). }
  assert (Hfs1 : fs w1 = fs w).
  { assert (Hr : respects same_fs (ddgs_search env (query req))).
    { unfold ddgs_search. respects_tac ltac:(apply sf_extern). }
    exact (respects_run _ _ _ _ _ Hr Hs). }
  destruct results as [|first rest]; [discriminate Hb |].
  apply bind_Raise_inv in Hb as [Hb | (u & w2 & H2 & Hb)].
  { left. apply extern_fs in Hb. congruence. }
  apply extern_fs in H2.
  apply bind_Raise_inv in Hb as [Hb | (image_url & w3 & H3 & Hb)].
  { left. apply getitem_world in Hb as ->. congruence. }
  apply getitem_world in H3 as ->.
  apply bind_Raise_inv in Hb as [Hb | (content & w4 & H4 & Hb)].
  { left. apply extern_fs in Hb. congruence. }
  apply extern_fs in H4.
  apply bind_Raise_inv in Hb as [Hb | (image0 & w5 & H5 & Hb)].
  { left. apply extern_fs in Hb. congruence. }
  apply extern_fs in H5.
  apply bind_Raise_inv in Hb as [Hb | (image1 & w6 & H6 & Hb)].
  { left. apply extern_fs in Hb. congruence. }
  apply extern_fs in H6.
  pose proof (remove_bg_block_same_fs env (remove_bg req) image1) as Hbg.
  apply bind_Raise_inv in Hb as [Hb | (image & w7 & H7 & Hb)].
  { left. apply (respects_run _ _ _ _ _ Hbg) in Hb. unfold same_fs in Hb. congruence. }
  apply (respects_run _ _ _ _ _ Hbg) in H7. unfold same_fs in H7.
  apply bind_Raise_inv in Hb as [Hb | (img_id & w8 & Hsave & Hb)].
  { left. apply save_png_Raise_fs in Hb. congruence. }
  apply save_png_Ok_inv in Hsave as (hex & png & _ & Hfs8).
  apply bind_Raise_inv in Hb as [Hb | (all_results & w9 & _ & Hb)];
    [| discriminate Hb].
  apply search_entries_Raise_inv in Hb as (-> & -> & _).
  right. exists hex, png. split.
  - rewrite Hfs8. f_equal. congruence.
  - simpl in H. unfold raise in H. by simplify_eq.
Qed.

Lemma search_image_failure_disk_witness :
  fs (search_image env_broken_candidate search_req0 world0).2 = fs world0
  \/ exists hex png,
       fs (search_image env_broken_candidate search_req0 world0).2
       = <[token_path env_broken_candidate ReferenceImage hex := File png]> (fs world0) /\
       match (search_image env_broken_candidate search_req0 world0).1 with
       | Raise e => e
       | Ok _ => PyExc KeyError ""
       end = HTTPException 500 "Image search failed: 'image'".
Proof.
  apply (search_image_failure_disk env_broken_candidate search_req0 world0).
  vm_compute. reflexivity.
Defined.

(** The second case does occur: with a second candidate that has no
    "image", the request fails and the image of the first stays on disk. *)
Example search_image_orphan_file :
  (search_image env_broken_candidate search_req0 world0).1
  = Raise (HTTPException 500 "Image search failed: 'image'")
  /\ fs (search_image env_broken_candidate search_req0 world0).2
       !! token_path env_broken_candidate ReferenceImage
            "3f2a9c01d4e84b7a9b1c5d6e7f809a1b"
     = Some (File "PNG").
Proof. split; vm_compute; reflexivity. Qed.
